(** * 100 Days Better Me: the day-progression core of [script.js]

    A shallow embedding of the habit tracker's state machine: the rule
    table, the per-day record, the scoring functions, [saveHabit],
    [completeCurrentDay], [updateStreak], the load-time normalisation of
    [init] and [restartChallenge].

    Conventions of the embedding.
    - The global [appData] is threaded explicitly: an operation takes the
      value of [appData] before the call and returns its value after it.
    - A measured value is a JavaScript number.  It is modelled by [Num]:
      the three special values and, for a finite number, its exact
      rational value (every finite double is a rational).
    - [currentDay] and [streak] count days; they are modelled as [Z].
      [appData.days] is an object used as a map from day number to record:
      a [gmap Z DayData].
    - Writes to the DOM do not change [appData] and are not modelled;
      what the user is shown (an alert or a toast) is the [Outcome] an
      operation returns.  Callbacks scheduled with [setTimeout] run
      later and are steps of their own.  What [saveData] writes is read
      back by the next load of the page, [page_load]. *)

From Stdlib Require Import ZArith QArith Bool List String Lia.
From stdpp Require Import base option gmap.
Import ListNotations.

Local Open Scope Z_scope.

(* ------------------------------------------------------------------ *)
(** ** JavaScript numbers and the comparisons the code uses             *)
(* ------------------------------------------------------------------ *)

Inductive Num : Type :=
| NaN
| PInf
| NInf
| Fin (q : Q).

(** [a >= b] on numbers: false as soon as one side is NaN. *)
Definition js_ge (a b : Num) : bool :=
  match a, b with
  | NaN, _ | _, NaN => false
  | PInf, _ => true
  | _, NInf => true
  | NInf, _ => false
  | Fin _, PInf => false
  | Fin x, Fin y => Qle_bool y x
  end.

(** [a <= b] *)
Definition js_le (a b : Num) : bool := js_ge b a.

(** [a < b] *)
Definition js_lt (a b : Num) : bool :=
  match a, b with
  | NaN, _ | _, NaN => false
  | _, _ => negb (js_ge a b)
  end.

(** [isNaN(value)] on a number. *)
Definition isNaN (a : Num) : bool :=
  match a with NaN => true | _ => false end.

Definition num_of_Z (z : Z) : Num := Fin (inject_Z z).

(** What a property of a day record can hold: [null], [undefined] (the
    property is missing) or a number. *)
Inductive Value : Type :=
| VNull
| VUndefined
| VNum (n : Num).

(* ------------------------------------------------------------------ *)
(** ** Habit kinds and HABIT_RULES                                      *)
(* ------------------------------------------------------------------ *)

Inductive Habit : Type := Sleep | Water | Workout | Study | Food.

#[global] Instance Habit_eq_dec : EqDecision Habit.
Proof. solve_decision. Defined.

(** The array [['sleep', 'water', 'workout', 'study', 'food']]. *)
Definition habits : list Habit := [Sleep; Water; Workout; Study; Food].

Record Rule : Type := { min : Z; max : option Z }.

Definition HABIT_RULES (habit : Habit) : Rule :=
  match habit with
  | Sleep   => {| min := 7;    max := None |}
  | Water   => {| min := 8;    max := None |}
  | Workout => {| min := 30;   max := None |}
  | Study   => {| min := 60;   max := None |}
  | Food    => {| min := 2000; max := Some 2500 |}
  end.

Definition POINTS_PER_HABIT : Z := 20.
Definition MAX_SCORE : Z := 100.

(** [value <= rule.max]; a rule without [max] gives [undefined], and a
    comparison with [undefined] is false. *)
Definition le_max (value : Num) (rule : Rule) : bool :=
  match max rule with
  | Some m => js_le value (num_of_Z m)
  | None => false
  end.

(** [isHabitCompleted(habit, value)].  The guards [!rule] and [default:]
    of the source serve keys outside the five kinds, which [Habit]
    excludes. *)
Definition isHabitCompleted (habit : Habit) (value : Value) : bool :=
  match value with
  | VNull | VUndefined => false
  | VNum v =>
      let rule := HABIT_RULES habit in
      match habit with
      | Sleep   => js_ge v (num_of_Z (min rule))
      | Water   => js_ge v (num_of_Z (min rule))
      | Workout => js_ge v (num_of_Z (min rule))
      | Study   => js_ge v (num_of_Z (min rule))
      | Food    => js_ge v (num_of_Z (min rule)) && le_max v rule
      end
  end.

Definition calculateHabitScore (habit : Habit) (value : Value) : Z :=
  if isHabitCompleted habit value then POINTS_PER_HABIT else 0.

(* ------------------------------------------------------------------ *)
(** ** Day records                                                      *)
(* ------------------------------------------------------------------ *)

Record CompletedHabits : Type := {
  ch_sleep : bool;
  ch_water : bool;
  ch_workout : bool;
  ch_study : bool;
  ch_food : bool
}.

Record DayData : Type := {
  sleep : Value;
  water : Value;
  workout : Value;
  study : Value;
  food : Value;
  completedHabits : CompletedHabits;
  score : Z;
  completed : bool
}.

(** [dayData[habit]] *)
Definition get_value (dayData : DayData) (habit : Habit) : Value :=
  match habit with
  | Sleep => sleep dayData
  | Water => water dayData
  | Workout => workout dayData
  | Study => study dayData
  | Food => food dayData
  end.

(** [dayData[habit] = value] *)
Definition set_value (dayData : DayData) (habit : Habit) (value : Value) : DayData :=
  let '{| sleep := sl; water := wa; workout := wo; study := st; food := fo;
          completedHabits := ch; score := sc; completed := co |} := dayData in
  match habit with
  | Sleep   => Build_DayData value wa wo st fo ch sc co
  | Water   => Build_DayData sl value wo st fo ch sc co
  | Workout => Build_DayData sl wa value st fo ch sc co
  | Study   => Build_DayData sl wa wo value fo ch sc co
  | Food    => Build_DayData sl wa wo st value ch sc co
  end.

(** [completedHabits[habit]] *)
Definition get_flag (ch : CompletedHabits) (habit : Habit) : bool :=
  match habit with
  | Sleep => ch_sleep ch
  | Water => ch_water ch
  | Workout => ch_workout ch
  | Study => ch_study ch
  | Food => ch_food ch
  end.

Definition set_flag (ch : CompletedHabits) (habit : Habit) (b : bool) : CompletedHabits :=
  let '{| ch_sleep := sl; ch_water := wa; ch_workout := wo; ch_study := st;
          ch_food := fo |} := ch in
  match habit with
  | Sleep   => Build_CompletedHabits b wa wo st fo
  | Water   => Build_CompletedHabits sl b wo st fo
  | Workout => Build_CompletedHabits sl wa b st fo
  | Study   => Build_CompletedHabits sl wa wo b fo
  | Food    => Build_CompletedHabits sl wa wo st b
  end.

(** [dayData.completedHabits[habit] = b] *)
Definition set_completedHabit (dayData : DayData) (habit : Habit) (b : bool) : DayData :=
  {| sleep := sleep dayData; water := water dayData; workout := workout dayData;
     study := study dayData; food := food dayData;
     completedHabits := set_flag (completedHabits dayData) habit b;
     score := score dayData; completed := completed dayData |}.

(** [dayData.score = s] *)
Definition set_score (dayData : DayData) (s : Z) : DayData :=
  {| sleep := sleep dayData; water := water dayData; workout := workout dayData;
     study := study dayData; food := food dayData;
     completedHabits := completedHabits dayData;
     score := s; completed := completed dayData |}.

(** [dayData.completed = b] *)
Definition set_completed (dayData : DayData) (b : bool) : DayData :=
  {| sleep := sleep dayData; water := water dayData; workout := workout dayData;
     study := study dayData; food := food dayData;
     completedHabits := completedHabits dayData;
     score := score dayData; completed := b |}.

(** The literal that [getCurrentDayData] stores for an untouched day. *)
Definition default_day : DayData :=
  {| sleep := VNull; water := VNull; workout := VNull; study := VNull;
     food := VNull;
     completedHabits := {| ch_sleep := false; ch_water := false;
                           ch_workout := false; ch_study := false;
                           ch_food := false |};
     score := 0; completed := false |}.

(** [calculateDayScore]: the [forEach] adds each habit's points to
    [totalScore], in the order of the array. *)
Definition calculateDayScore (dayData : DayData) : Z :=
  fold_left
    (fun totalScore habit =>
       totalScore + calculateHabitScore habit (get_value dayData habit))
    habits 0.

(** [areAllHabitsCompleted]: [every] over the array. *)
Definition areAllHabitsCompleted (dayData : DayData) : bool :=
  forallb (fun habit => get_flag (completedHabits dayData) habit) habits.

(* ------------------------------------------------------------------ *)
(** ** The application state [appData]                                  *)
(* ------------------------------------------------------------------ *)

Record AppData : Type := {
  currentDay : Z;
  streak : Z;
  days : gmap Z DayData;
  whyStarted : string
}.

(** The object literal used when [localStorage] holds nothing. *)
Definition fresh : AppData :=
  {| currentDay := 1; streak := 0; days := ∅; whyStarted := EmptyString |}.

Definition set_days (appData : AppData) (ds : gmap Z DayData) : AppData :=
  {| currentDay := currentDay appData; streak := streak appData;
     days := ds; whyStarted := whyStarted appData |}.

Definition set_streak (appData : AppData) (s : Z) : AppData :=
  {| currentDay := currentDay appData; streak := s;
     days := days appData; whyStarted := whyStarted appData |}.

Definition set_currentDay (appData : AppData) (d : Z) : AppData :=
  {| currentDay := d; streak := streak appData;
     days := days appData; whyStarted := whyStarted appData |}.

Definition set_whyStarted (appData : AppData) (w : string) : AppData :=
  {| currentDay := currentDay appData; streak := streak appData;
     days := days appData; whyStarted := w |}.

(** A write through the reference [dayData] that [getCurrentDayData]
    returned: the record is the one stored under [day]. *)
Definition store_day (appData : AppData) (day : Z) (dayData : DayData) : AppData :=
  set_days appData (<[day := dayData]> (days appData)).

(** [getCurrentDayData]: creates the default record on first access and
    returns the record of the current day. *)
Definition getCurrentDayData (appData : AppData) : DayData * AppData :=
  let day := currentDay appData in
  match days appData !! day with
  | Some dayData => (dayData, appData)
  | None => (default_day, store_day appData day default_day)
  end.

(** [updateScoreDisplay] reads the current record through
    [getCurrentDayData]; on [appData] it has the effect of that call.
    The same holds for [loadCurrentDayUI], which the timer callbacks of
    [completeCurrentDay] and [restartChallenge] run. *)
Definition updateScoreDisplay (appData : AppData) : AppData :=
  snd (getCurrentDayData appData).

(** [completeCurrentDay] *)
Definition completeCurrentDay (appData : AppData) : AppData :=
  let '(dayData, appData) := getCurrentDayData appData in
  let dayData := set_completed dayData true in
  let appData := store_day appData (currentDay appData) dayData in
  let appData := set_streak appData (streak appData + 1) in
  if currentDay appData <? 100
  then set_currentDay appData (currentDay appData + 1)
  else appData.

(** What the user is shown at the end of [saveHabit]. *)
Inductive Outcome : Type :=
| InputNotFound        (* alert: Input field not found! *)
| InvalidInput         (* alert: Please enter a valid number *)
| DayLocked            (* alert: already completed and locked *)
| HabitDone            (* toast: habit completed *)
| HabitNotDone         (* toast: saved, but not completed *)
| DayDone.             (* completeCurrentDay ran *)

(** [saveHabit(habit)].  [input] is what the first lines obtain from the
    page: [None] when there is no input element for the habit, otherwise
    the number [parseFloat(inputElement.value)]. *)
Definition saveHabit (appData : AppData) (habit : Habit) (input : option Num)
  : Outcome * AppData :=
  match input with
  | None => (InputNotFound, appData)
  | Some value =>
      if isNaN value || js_lt value (num_of_Z 0) then (InvalidInput, appData)
      else
        let '(dayData, appData) := getCurrentDayData appData in
        if completed dayData then (DayLocked, appData)
        else
          let dayData := set_value dayData habit (VNum value) in
          let isCompleted := isHabitCompleted habit (VNum value) in
          let dayData := set_completedHabit dayData habit isCompleted in
          let dayData := set_score dayData (calculateDayScore dayData) in
          let appData := store_day appData (currentDay appData) dayData in
          let appData := updateScoreDisplay appData in
          if areAllHabitsCompleted dayData
          then (DayDone, completeCurrentDay appData)
          else if isCompleted then (HabitDone, appData)
               else (HabitNotDone, appData)
  end.

(** The loop of [updateStreak].  [day] is the loop variable: the loop
    runs while [day >= 1], so it is a natural number, zero meaning that
    the test fails.  [streak] is the counter. *)
Fixpoint updateStreak_loop (ds : gmap Z DayData) (day : nat) (streak : Z) : Z :=
  match day with
  | O => streak
  | S prev =>
      match ds !! Z.of_nat day with
      | Some dayData =>
          if completed dayData
          then updateStreak_loop ds prev (streak + 1)
          else streak
      | None => streak
      end
  end.

(** [updateStreak].  A [currentDay] below 1 fails the loop test at once,
    which is what [Z.to_nat] gives. *)
Definition updateStreak (appData : AppData) : AppData :=
  let streak := updateStreak_loop (days appData) (Z.to_nat (currentDay appData)) 0 in
  set_streak appData streak.

(** [saveWhy] *)
Definition saveWhy (appData : AppData) (text : string) : AppData :=
  set_whyStarted appData text.

(** [restartChallenge].  [answer1] and [answer2] are the user's answers to
    the two [confirm] dialogs; they are asked only when day 100 is
    completed.  The reload of the page half a second later is
    [loadCurrentDayUI] followed by [updateStreak]. *)
Definition restartChallenge (appData : AppData) (answer1 answer2 : bool) : AppData :=
  let isCompleted :=
    (100 <=? currentDay appData) &&
    match days appData !! 100 with
    | Some dayData => completed dayData
    | None => false
    end in
  let confirmed := if isCompleted then answer1 else true in
  let keepMotivation := if isCompleted && confirmed then answer2 else true in
  if confirmed
  then {| currentDay := 1; streak := 0; days := ∅;
          whyStarted := if keepMotivation then whyStarted appData else EmptyString |}
  else appData.

(* ------------------------------------------------------------------ *)
(** ** What [JSON.parse] may hand to [init]                             *)
(* ------------------------------------------------------------------ *)

(** A stored property before [init] has looked at it.  [O] is what an
    object carries. *)
Inductive JSVal (O : Type) : Type :=
| JUndefined
| JNull
| JBool (b : bool)
| JNumber (n : Num)
| JString (s : string)
| JObject (o : O).

Arguments JUndefined {O}.
Arguments JNull {O}.
Arguments JBool {O} b.
Arguments JNumber {O} n.
Arguments JString {O} s.
Arguments JObject {O} o.

(** [typeof v === 'number'] *)
Definition typeof_number {O} (v : JSVal O) : bool :=
  match v with JNumber _ => true | _ => false end.

(** [!v]: the falsy values are undefined, null, false, 0, NaN and the
    empty string. *)
Definition js_not {O} (v : JSVal O) : bool :=
  match v with
  | JUndefined | JNull => true
  | JBool b => negb b
  | JNumber NaN => true
  | JNumber (Fin q) => Qeq_bool q 0
  | JNumber _ => false
  | JString s => match s with EmptyString => true | _ => false end
  | JObject _ => false
  end.

(** [v < k] for a stored number [v]; used only under [typeof_number]. *)
Definition js_lt_Z {O} (v : JSVal O) (k : Z) : bool :=
  match v with
  | JNumber n => js_lt n (num_of_Z k)
  | _ => false
  end.

Record RawData : Type := {
  raw_currentDay : JSVal unit;
  raw_streak : JSVal unit;
  raw_days : JSVal (gmap Z DayData);
  raw_whyStarted : JSVal unit
}.

(** The three guards at the head of [init] (Ensure data structure is
    valid), in the order of the source. *)
Definition init_ensure_valid (raw : RawData) : RawData :=
  let raw :=
    if js_not (raw_days raw)
    then {| raw_currentDay := raw_currentDay raw; raw_streak := raw_streak raw;
            raw_days := JObject ∅; raw_whyStarted := raw_whyStarted raw |}
    else raw in
  let raw :=
    if negb (typeof_number (raw_currentDay raw)) || js_lt_Z (raw_currentDay raw) 1
    then {| raw_currentDay := JNumber (num_of_Z 1); raw_streak := raw_streak raw;
            raw_days := raw_days raw; raw_whyStarted := raw_whyStarted raw |}
    else raw in
  if negb (typeof_number (raw_streak raw)) || js_lt_Z (raw_streak raw) 0
  then {| raw_currentDay := raw_currentDay raw; raw_streak := JNumber (num_of_Z 0);
          raw_days := raw_days raw; raw_whyStarted := raw_whyStarted raw |}
  else raw.

(** A stored number that is a day of the challenge: an integer from 1
    to 100. *)
Definition valid_day_number (v : JSVal unit) : Prop :=
  exists (q : Q) (d : Z),
    v = JNumber (Fin q) /\ Qeq q (inject_Z d) /\ 1 <= d <= 100.

(* ------------------------------------------------------------------ *)
(** ** Reachable states and the properties of a record                  *)
(* ------------------------------------------------------------------ *)

(** 20 points for each flag that is set. *)
Definition flag_points (ch : CompletedHabits) : Z :=
  (if ch_sleep ch then 20 else 0) + (if ch_water ch then 20 else 0) +
  (if ch_workout ch then 20 else 0) + (if ch_study ch then 20 else 0) +
  (if ch_food ch then 20 else 0).

(** Every flag is the rule applied to the stored measurement. *)
Definition flags_derived (dayData : DayData) : Prop :=
  forall habit,
    get_flag (completedHabits dayData) habit =
    isHabitCompleted habit (get_value dayData habit).

Definition all_flags (dayData : DayData) : Prop :=
  forall habit, get_flag (completedHabits dayData) habit = true.

(** What [saveHabit] and [completeCurrentDay] maintain of a record. *)
Record record_ok (dayData : DayData) : Prop := {
  ok_flags : flags_derived dayData;
  ok_score : score dayData = calculateDayScore dayData;
  ok_completed : completed dayData = true -> all_flags dayData
}.

Definition days_ok (appData : AppData) : Prop :=
  forall day dayData, days appData !! day = Some dayData -> record_ok dayData.

(** The record [saveHabit] writes back, from the record it fetched. *)
Definition saved_record (dayData : DayData) (habit : Habit) (value : Num) : DayData :=
  let dayData := set_value dayData habit (VNum value) in
  let dayData := set_completedHabit dayData habit (isHabitCompleted habit (VNum value)) in
  set_score dayData (calculateDayScore dayData).

(** The record of the current day as [getCurrentDayData] returns it. *)
Definition current_record (appData : AppData) : DayData :=
  fst (getCurrentDayData appData).

(** The input passes the guard of [saveHabit]. *)
Definition accepted (value : Num) : bool :=
  negb (isNaN value || js_lt value (num_of_Z 0)).

(** The order [>=] of numbers, as a relation: NaN is related to nothing. *)
Inductive num_ge : Num -> Num -> Prop :=
| ge_pinf b : b <> NaN -> num_ge PInf b
| ge_ninf a : a <> NaN -> num_ge a NInf
| ge_fin x y : Qle y x -> num_ge (Fin x) (Fin y).

(** The rule of a habit read off [HABIT_RULES]: at least [min], and for
    Food at most [max] as well. *)
Definition meets_rule (habit : Habit) (v : Num) : Prop :=
  match habit with
  | Food =>
      num_ge v (num_of_Z (min (HABIT_RULES Food))) /\
      match max (HABIT_RULES Food) with
      | Some m => num_ge (num_of_Z m) v
      | None => False
      end
  | _ => num_ge v (num_of_Z (min (HABIT_RULES habit)))
  end.

(** The flags a record would have were they recomputed from its
    measurements. *)
Definition derived_flags (dayData : DayData) : CompletedHabits :=
  {| ch_sleep := isHabitCompleted Sleep (sleep dayData);
     ch_water := isHabitCompleted Water (water dayData);
     ch_workout := isHabitCompleted Workout (workout dayData);
     ch_study := isHabitCompleted Study (study dayData);
     ch_food := isHabitCompleted Food (food dayData) |}.

(** Day [day] has a record and the record is completed. *)
Definition day_completed (ds : gmap Z DayData) (day : Z) : Prop :=
  exists dayData, ds !! day = Some dayData /\ completed dayData = true.

(* ------------------------------------------------------------------ *)
(** ** Sample records and states                                        *)
(* ------------------------------------------------------------------ *)

(** A record with every flag set and nothing measured: not one that
    [saveHabit] produces, but one that storage can hold. *)
Definition flags_without_measurements : DayData :=
  {| sleep := VNull; water := VNull; workout := VNull; study := VNull;
     food := VNull;
     completedHabits := {| ch_sleep := true; ch_water := true;
                           ch_workout := true; ch_study := true;
                           ch_food := true |};
     score := 0; completed := false |}.

(** One day of inputs that meet every rule, in the order of the cards. *)
Definition good_day : list (Habit * Num) :=
  [(Sleep, num_of_Z 8); (Water, num_of_Z 8); (Workout, num_of_Z 30);
   (Study, num_of_Z 60); (Food, num_of_Z 2200)].

(** [saveHabit] for each input of the list in turn. *)
Definition save_all (inputs : list (Habit * Num)) (appData : AppData) : AppData :=
  fold_left (fun appData '(habit, value) => snd (saveHabit appData habit (Some value)))
    inputs appData.

(** The record of a day on which [good_day] was entered. *)
Definition good_record : DayData :=
  {| sleep := VNum (num_of_Z 8); water := VNum (num_of_Z 8);
     workout := VNum (num_of_Z 30); study := VNum (num_of_Z 60);
     food := VNum (num_of_Z 2200);
     completedHabits := {| ch_sleep := true; ch_water := true;
                           ch_workout := true; ch_study := true;
                           ch_food := true |};
     score := 100; completed := true |}.

(** Days 1 to 3 completed, day 4 current and not yet touched. *)
Definition three_days_done : AppData :=
  {| currentDay := 4; streak := 3;
     days := <[1 := good_record]> (<[2 := good_record]> (<[3 := good_record]> ∅));
     whyStarted := EmptyString |}.

(** The outcomes of [saveHabit] after which the value is in the record. *)
Definition recorded (outcome : Outcome) : bool :=
  match outcome with
  | HabitDone | HabitNotDone | DayDone => true
  | InputNotFound | InvalidInput | DayLocked => false
  end.

(** One call of an operation that keeps the challenge going: everything
    but [restartChallenge]. *)
Inductive core_step : AppData -> AppData -> Prop :=
| step_saveHabit appData habit input :
    core_step appData (snd (saveHabit appData habit input))
| step_completeCurrentDay appData :
    core_step appData (completeCurrentDay appData)
| step_updateStreak appData :
    core_step appData (updateStreak appData)
| step_getCurrentDayData appData :
    core_step appData (snd (getCurrentDayData appData))
| step_saveWhy appData text :
    core_step appData (saveWhy appData text).

(** [n] good days of inputs, one after the other. *)
Definition good_days (n : nat) : list (Habit * Num) := concat (repeat good_day n).

(** The challenge after 99 good days, with the fifth habit of day 100
    just saved: the state in which [saveHabit] calls
    [completeCurrentDay] for the last day. *)
Definition last_day_filled : AppData :=
  store_day (save_all (good_days 99) fresh) 100 (set_completed good_record false).

(** The finished challenge: 100 good days entered from the fresh state.
    Day 100 is completed and is still the current day. *)
Definition challenge_done : AppData := save_all (good_days 100) fresh.

(** A stored blob whose [currentDay] is a number beyond the challenge. *)
Definition stored_day_150 : RawData :=
  {| raw_currentDay := JNumber (num_of_Z 150);
     raw_streak := JNumber (num_of_Z 0);
     raw_days := JObject ∅;
     raw_whyStarted := JString EmptyString |}.

(* ------------------------------------------------------------------ *)
(** ** What the pages show                                              *)
(* ------------------------------------------------------------------ *)

(** The classes [renderCalendar] adds to a cell. *)
Inductive CellClass : Type := cls_done | cls_incomplete | cls_current.

#[global] Instance CellClass_eq_dec : EqDecision CellClass.
Proof. solve_decision. Defined.

(** The body of the loop of [renderCalendar] for one day: the classes of
    the cell, in the order they are added. *)
Definition calendar_cell (appData : AppData) (day : Z) : list CellClass :=
  let dayData := days appData !! day in
  (match dayData with
   | Some d =>
       if completed d then [cls_done]
       else if day <? currentDay appData then [cls_incomplete] else []
   | None => []
   end)
  ++ (if day =? currentDay appData then [cls_current] else []).

(** [renderCalendar]: one cell for each day from 1 to 100. *)
Definition renderCalendar (appData : AppData) : list (Z * list CellClass) :=
  map (fun day => (day, calendar_cell appData day)) (seqZ 1 100).

(** One list item of [showDayDetails]: the tick of the habit, its label
    and the logged value, [None] standing for the text Not logged. *)
Record HabitLine : Type := {
  line_status : bool;
  line_label : Habit;
  line_value : option Value
}.

(** What [showDayDetails] writes into the details panel. *)
Inductive DayDetails : Type :=
| NoData
| Recorded (status : bool) (shown_score : Z) (lines : list HabitLine).

(** [showDayDetails(day)] *)
Definition showDayDetails (appData : AppData) (day : Z) : DayDetails :=
  match days appData !! day with
  | None => NoData
  | Some dayData =>
      Recorded (completed dayData) (score dayData)
        (map (fun habit =>
                let value := get_value dayData habit in
                let completed := get_flag (completedHabits dayData) habit in
                {| line_status := completed;
                   line_label := habit;
                   line_value := match value with
                                 | VNull => None
                                 | _ => Some value
                                 end |})
             habits)
  end.

(** [completedDays] of [loadCurrentDayUI]: the number of keys of
    [appData.days] whose record is completed. *)
Definition completedDays (appData : AppData) : nat :=
  size (filter (fun kv : Z * DayData => completed kv.2 = true) (days appData)).

(** What [loadCurrentDayUI] puts on the dashboard. *)
Record Dashboard : Type := {
  input_values : list (Habit * option Num);
  ticks : list (Habit * bool);
  score_percent : Z;
  shown_day : Z;
  shown_streak : Z;
  shown_progress : nat;
  inputs_disabled : bool
}.

(** [loadCurrentDayUI]: the current record is fetched (and created when
    missing), each input gets the stored value or the empty text, each
    card its tick; then the score (of the record [updateScoreDisplay]
    fetches), the day, the streak, the progress count and the lock of
    the inputs. *)
Definition loadCurrentDayUI (appData : AppData) : Dashboard * AppData :=
  let '(dayData, appData) := getCurrentDayData appData in
  let appData := updateScoreDisplay appData in
  ({| input_values :=
        map (fun habit =>
               (habit, match get_value dayData habit with
                       | VNum value => Some value
                       | _ => None
                       end)) habits;
      ticks := map (fun habit => (habit, get_flag (completedHabits dayData) habit))
                 habits;
      score_percent := score (fst (getCurrentDayData appData));
      shown_day := currentDay appData;
      shown_streak := streak appData;
      shown_progress := completedDays appData;
      inputs_disabled := completed dayData |},
   appData).

(** [isCompleted] of [restartChallenge]: day 100 is reached and
    completed. *)
Definition challenge_completed (appData : AppData) : bool :=
  (100 <=? currentDay appData) &&
  match days appData !! 100 with
  | Some dayData => completed dayData
  | None => false
  end.

(* ------------------------------------------------------------------ *)
(** ** Saving and loading the page                                      *)
(* ------------------------------------------------------------------ *)

(** A measurement after [JSON.stringify] and [JSON.parse]: a finite
    number comes back as it was; a number that is not finite is written
    as [null]; a property that is [undefined] is left out and reads as
    [undefined] again. *)
Definition stored_value (value : Value) : Value :=
  match value with
  | VNum (Fin q) => VNum (Fin q)
  | VNum _ => VNull
  | VNull => VNull
  | VUndefined => VUndefined
  end.

(** A day record after [JSON.stringify] and [JSON.parse]: the flags, the
    score and [completed] are booleans and an integer and come back as
    they were. *)
Definition stored_day (dayData : DayData) : DayData :=
  {| sleep := stored_value (sleep dayData);
     water := stored_value (water dayData);
     workout := stored_value (workout dayData);
     study := stored_value (study dayData);
     food := stored_value (food dayData);
     completedHabits := completedHabits dayData;
     score := score dayData;
     completed := completed dayData |}.

(** The first statement of the script,
    [JSON.parse(localStorage.getItem(...)) || {...}], when the storage
    holds what [saveData] wrote of [appData]: the parsed object is
    truthy, so the default is not taken. *)
Definition parse_saved (appData : AppData) : AppData :=
  {| currentDay := currentDay appData;
     streak := streak appData;
     days := stored_day <$> days appData;
     whyStarted := whyStarted appData |}.

(** [init] on a state whose [days] is an object and whose [currentDay]
    and [streak] are numbers: the first guard and the [typeof] tests
    pass, the two comparisons remain; then [updateStreak] and
    [loadCurrentDayUI].  What follows draws the page and writes the
    storage. *)
Definition init (appData : AppData) : AppData :=
  let appData :=
    if currentDay appData <? 1 then set_currentDay appData 1 else appData in
  let appData :=
    if streak appData <? 0 then set_streak appData 0 else appData in
  let appData := updateStreak appData in
  snd (loadCurrentDayUI appData).

(** A load of the page.  Every handler that changes [appData] ends with
    [saveData], except the creation of the default record of the
    current day, which [init] does again; so the storage holds
    [appData], and the page starts from its parsed copy. *)
Definition page_load (appData : AppData) : AppData :=
  init (parse_saved appData).

(** What [JSON.parse] returns for the stored text: [null] (also when
    nothing is stored), a boolean, a number, a string or an object. *)
Inductive Parsed : Type :=
| PNull
| PBool (b : bool)
| PNumber (n : Num)
| PString (s : string)
| PObject (raw : RawData).

(** The default object of the first statement. *)
Definition default_raw : RawData :=
  {| raw_currentDay := JNumber (num_of_Z 1);
     raw_streak := JNumber (num_of_Z 0);
     raw_days := JObject ∅;
     raw_whyStarted := JString EmptyString |}.

(** [parsed || {...}]: the default replaces a falsy value only. *)
Definition or_default (parsed : Parsed) : Parsed :=
  match parsed with
  | PNull => PObject default_raw
  | PBool b => if b then parsed else PObject default_raw
  | PNumber NaN => PObject default_raw
  | PNumber (Fin q) => if Qeq_bool q 0 then PObject default_raw else parsed
  | PNumber _ => parsed
  | PString EmptyString => PObject default_raw
  | PString _ => parsed
  | PObject _ => parsed
  end.

(** The three guards of [init] on whatever [appData] is.  The script is
    not in strict mode: an assignment to a property of a boolean, a
    number or a string is dropped, and such a property reads as
    [undefined], so the guards leave a primitive as it is. *)
Definition init_guards (appData : Parsed) : Parsed :=
  match appData with
  | PObject raw => PObject (init_ensure_valid raw)
  | _ => appData
  end.

(* ------------------------------------------------------------------ *)
(** ** States of a run                                                  *)
(* ------------------------------------------------------------------ *)

(** The states the page can be in when nothing was stored: the fresh
    state, and whatever the handlers, the timer callbacks and the loads
    of the page make of it.  [completeCurrentDay] has one call site, in
    [saveHabit], under the test [areAllHabitsCompleted(dayData)]. *)
Inductive reachable : AppData -> Prop :=
| reach_fresh : reachable fresh
| reach_saveHabit appData habit input :
    reachable appData -> reachable (snd (saveHabit appData habit input))
| reach_getCurrentDayData appData :
    reachable appData -> reachable (snd (getCurrentDayData appData))
| reach_completeCurrentDay appData dayData :
    reachable appData ->
    days appData !! currentDay appData = Some dayData ->
    areAllHabitsCompleted dayData = true ->
    reachable (completeCurrentDay appData)
| reach_updateStreak appData :
    reachable appData -> reachable (updateStreak appData)
| reach_saveWhy appData text :
    reachable appData -> reachable (saveWhy appData text)
| reach_restartChallenge appData answer1 answer2 :
    reachable appData -> reachable (restartChallenge appData answer1 answer2)
| reach_page_load appData :
    reachable appData -> reachable (page_load appData).

(** The states the handlers of the page produce from the fresh state:
    [saveHabit], the reload of the dashboard by a timer callback,
    [updateStreak], [saveWhy], [restartChallenge] and a load of the
    page. *)
Inductive handled : AppData -> Prop :=
| handled_fresh : handled fresh
| handled_saveHabit appData habit input :
    handled appData -> handled (snd (saveHabit appData habit input))
| handled_loadCurrentDayUI appData :
    handled appData -> handled (snd (loadCurrentDayUI appData))
| handled_updateStreak appData :
    handled appData -> handled (updateStreak appData)
| handled_saveWhy appData text :
    handled appData -> handled (saveWhy appData text)
| handled_restartChallenge appData answer1 answer2 :
    handled appData -> handled (restartChallenge appData answer1 answer2)
| handled_page_load appData :
    handled appData -> handled (page_load appData).

(** The number of days done: the current day counts once it is
    completed. *)
Definition days_done (appData : AppData) : Z :=
  if completed (current_record appData)
  then currentDay appData
  else currentDay appData - 1.

(** The shape of the state during a run. *)
Record shape (appData : AppData) : Prop := {
  shape_day : 1 <= currentDay appData <= 100;
  shape_streak : 0 <= streak appData;
  shape_keys : forall day dayData,
      days appData !! day = Some dayData -> 1 <= day <= currentDay appData;
  shape_past : forall day,
      1 <= day < currentDay appData -> day_completed (days appData) day;
  shape_current : forall dayData,
      days appData !! currentDay appData = Some dayData ->
      completed dayData = true -> currentDay appData = 100;
  shape_flags : forall day dayData,
      days appData !! day = Some dayData ->
      areAllHabitsCompleted dayData = true -> completed dayData = true;
  shape_values : forall day dayData habit,
      days appData !! day = Some dayData ->
      get_value dayData habit <> VUndefined
}.

(** Every other flag of the record is set. *)
Definition others_done (dayData : DayData) (habit : Habit) : bool :=
  forallb (fun h => bool_decide (h = habit) || get_flag (completedHabits dayData) h)
    habits.

(** Day 1 saved with four good inputs, day still open. *)
Definition four_saved : AppData :=
  save_all [(Sleep, num_of_Z 8); (Water, num_of_Z 8); (Workout, num_of_Z 30);
            (Study, num_of_Z 60)] fresh.

(* ------------------------------------------------------------------ *)
(** ** Runs with a page load                                            *)
(* ------------------------------------------------------------------ *)

(** The text Infinity typed for Sleep on day 1, then a load of the
    page. *)
Definition infinity_reloaded : AppData :=
  page_load (snd (saveHabit fresh Sleep (Some PInf))).

(** ... and then the four other habits of the day, with good values. *)
Definition infinity_day_done : AppData :=
  save_all [(Water, num_of_Z 8); (Workout, num_of_Z 30); (Study, num_of_Z 60);
            (Food, num_of_Z 2200)] infinity_reloaded.

(** What holds of a record in every run, loads of the page included: a
    measurement that meets its rule has its flag set; a set flag has a
    measurement that meets the rule, or none (it was not a finite number
    and a load of the page has put [null] in its place); the score is a
    multiple of 20 that counts no more than the set flags; a completed
    record has its five flags set. *)
Record record_weak (dayData : DayData) : Prop := {
  weak_up : forall habit,
      isHabitCompleted habit (get_value dayData habit) = true ->
      get_flag (completedHabits dayData) habit = true;
  weak_down : forall habit,
      get_flag (completedHabits dayData) habit = true ->
      isHabitCompleted habit (get_value dayData habit) = true \/
      get_value dayData habit = VNull;
  weak_score : 0 <= score dayData <= flag_points (completedHabits dayData);
  weak_multiple : (20 | score dayData);
  weak_completed : completed dayData = true -> all_flags dayData
}.

(** The inputs of a run are finite: what [parseFloat] returned for each
    save was not [Infinity]. *)
Definition finite_input (input : option Num) : Prop :=
  input <> Some PInf.

(** The states of a run in which no save was given [Infinity]. *)
Inductive finite_run : AppData -> Prop :=
| finite_fresh : finite_run fresh
| finite_saveHabit appData habit input :
    finite_run appData -> finite_input input ->
    finite_run (snd (saveHabit appData habit input))
| finite_getCurrentDayData appData :
    finite_run appData -> finite_run (snd (getCurrentDayData appData))
| finite_completeCurrentDay appData dayData :
    finite_run appData ->
    days appData !! currentDay appData = Some dayData ->
    areAllHabitsCompleted dayData = true ->
    finite_run (completeCurrentDay appData)
| finite_updateStreak appData :
    finite_run appData -> finite_run (updateStreak appData)
| finite_saveWhy appData text :
    finite_run appData -> finite_run (saveWhy appData text)
| finite_restartChallenge appData answer1 answer2 :
    finite_run appData -> finite_run (restartChallenge appData answer1 answer2)
| finite_page_load appData :
    finite_run appData -> finite_run (page_load appData).

(** A stored [days] that the first guard of [init] replaces: the falsy
    values, listed. *)
Inductive days_missing : JSVal (gmap Z DayData) -> Prop :=
| missing_undefined : days_missing JUndefined
| missing_null : days_missing JNull
| missing_false : days_missing (JBool false)
| missing_zero q : Qeq q 0 -> days_missing (JNumber (Fin q))
| missing_NaN : days_missing (JNumber NaN)
| missing_empty : days_missing (JString EmptyString).

(* ------------------------------------------------------------------ *)
(** ** Comparisons                                                      *)
(* ------------------------------------------------------------------ *)

Lemma js_ge_iff (a b : Num) : js_ge a b = true <-> num_ge a b.
Proof.
  split.
  - destruct a, b; simpl; intros H; try discriminate;
      try (constructor; congruence).
    constructor. now apply Qle_bool_iff.
  - intros H. destruct H as [b Hb | a Ha | x y Hxy].
    + destruct b; simpl; congruence.
    + destruct a; simpl; congruence.
    + simpl. now apply Qle_bool_iff.
Qed.

Lemma js_le_iff (a b : Num) : js_le a b = true <-> num_ge b a.
Proof. unfold js_le. apply js_ge_iff. Qed.

Lemma accepted_cases (v : Num) :
  accepted v = true <-> v = PInf \/ exists q, v = Fin q /\ Qle 0 q.
Proof.
  unfold accepted. destruct v as [ | | | q]; simpl.
  - split; [discriminate | intros [H | (q & H & _)]; discriminate].
  - split; [now left | reflexivity].
  - split; [discriminate | intros [H | (q & H & _)]; discriminate].
  - rewrite negb_involutive, Qle_bool_iff. change (inject_Z 0) with 0%Q. split.
    + intros H. right. exists q. split; [reflexivity | exact H].
    + intros [H | (q' & H & Hq)]; [discriminate | ]. now injection H as ->.
Qed.

(* ------------------------------------------------------------------ *)
(** ** Scoring                                                          *)
(* ------------------------------------------------------------------ *)

Lemma calculateDayScore_unfold (dayData : DayData) :
  calculateDayScore dayData =
  calculateHabitScore Sleep (sleep dayData) +
  calculateHabitScore Water (water dayData) +
  calculateHabitScore Workout (workout dayData) +
  calculateHabitScore Study (study dayData) +
  calculateHabitScore Food (food dayData).
Proof. unfold calculateDayScore. simpl. lia. Qed.

Lemma areAllHabitsCompleted_unfold (dayData : DayData) :
  areAllHabitsCompleted dayData =
  ch_sleep (completedHabits dayData) && (ch_water (completedHabits dayData) &&
  (ch_workout (completedHabits dayData) && (ch_study (completedHabits dayData) &&
  (ch_food (completedHabits dayData) && true)))).
Proof. reflexivity. Qed.

Lemma areAllHabitsCompleted_all_flags (dayData : DayData) :
  areAllHabitsCompleted dayData = true <-> all_flags dayData.
Proof.
  rewrite areAllHabitsCompleted_unfold. unfold all_flags. split.
  - intros H habit.
    repeat (apply andb_prop in H as [? H]). now destruct habit.
  - intros H.
    rewrite (H Sleep : ch_sleep _ = true), (H Water : ch_water _ = true),
      (H Workout : ch_workout _ = true), (H Study : ch_study _ = true),
      (H Food : ch_food _ = true).
    reflexivity.
Qed.

(** With flags that follow the measurements, the score counts the flags. *)
Lemma score_counts_flags (dayData : DayData) :
  flags_derived dayData ->
  calculateDayScore dayData = flag_points (completedHabits dayData).
Proof.
  intros H. rewrite calculateDayScore_unfold. unfold flag_points, calculateHabitScore.
  pose proof (H Sleep) as H1. pose proof (H Water) as H2.
  pose proof (H Workout) as H3. pose proof (H Study) as H4.
  pose proof (H Food) as H5. simpl in H1, H2, H3, H4, H5.
  now rewrite H1, H2, H3, H4, H5.
Qed.

Lemma flag_points_range (ch : CompletedHabits) :
  (20 | flag_points ch) /\ 0 <= flag_points ch <= 100.
Proof.
  destruct ch as [[] [] [] [] []]; unfold flag_points; simpl;
    (split; [ | lia]);
    first [ now exists 0 | now exists 1 | now exists 2
          | now exists 3 | now exists 4 | now exists 5 ].
Qed.

Lemma flag_points_100 (ch : CompletedHabits) :
  flag_points ch = 100 <-> forall habit, get_flag ch habit = true.
Proof.
  split.
  - destruct ch as [[] [] [] [] []]; unfold flag_points; simpl;
      intros H habit; try discriminate H; now destruct habit.
  - intros H. unfold flag_points.
    rewrite (H Sleep : ch_sleep _ = true), (H Water : ch_water _ = true),
      (H Workout : ch_workout _ = true), (H Study : ch_study _ = true),
      (H Food : ch_food _ = true).
    reflexivity.
Qed.

Lemma calculateDayScore_derived (dayData : DayData) :
  calculateDayScore dayData = flag_points (derived_flags dayData).
Proof. rewrite calculateDayScore_unfold. reflexivity. Qed.

(** C2.  An unset value ([null] or [undefined]) completes no habit.  For a
    number [v], a habit other than Food is completed exactly when
    [v >= min], and Food exactly when [min <= v <= max], with [min] and
    [max] from [HABIT_RULES].  Nothing is rounded: for a finite [v] the
    test is the comparison of its exact rational value with the bounds. *)
Theorem isHabitCompleted_rule (habit : Habit) :
  isHabitCompleted habit VNull = false /\
  isHabitCompleted habit VUndefined = false /\
  (forall v : Num, isHabitCompleted habit (VNum v) = true <-> meets_rule habit v) /\
  (forall q : Q,
      isHabitCompleted habit (VNum (Fin q)) = true <->
      if decide (habit = Food)
      then Qle (inject_Z 2000) q /\ Qle q (inject_Z 2500)
      else Qle (inject_Z (min (HABIT_RULES habit))) q).
Proof.
  split; [reflexivity | split; [reflexivity | split]].
  - intros v. unfold isHabitCompleted, meets_rule, le_max.
    destruct habit; cbn [HABIT_RULES min max];
      rewrite ?andb_true_iff, ?js_le_iff, ?js_ge_iff; reflexivity.
  - intros q. unfold isHabitCompleted, le_max, js_le, num_of_Z.
    destruct habit; cbn [HABIT_RULES min max js_ge decide];
      rewrite ?andb_true_iff, ?Qle_bool_iff; reflexivity.
Qed.

(** C7.  The score of any record is a multiple of 20 between 0 and 100.
    For a record whose [completedHabits] flags are the rules applied to
    its measurements, the score is 100 exactly when
    [areAllHabitsCompleted] holds. *)
Theorem calculateDayScore_range (dayData : DayData) :
  (20 | calculateDayScore dayData) /\
  0 <= calculateDayScore dayData <= 100 /\
  (flags_derived dayData ->
   (calculateDayScore dayData = 100 <-> areAllHabitsCompleted dayData = true)).
Proof.
  rewrite calculateDayScore_derived.
  destruct (flag_points_range (derived_flags dayData)) as [Hdiv Hrange].
  split; [exact Hdiv | split; [exact Hrange | ]].
  intros Hflags.
  rewrite <- calculateDayScore_derived, (score_counts_flags _ Hflags).
  rewrite flag_points_100, areAllHabitsCompleted_all_flags. reflexivity.
Qed.

Lemma calculateDayScore_range_witness :
  flags_derived default_day /\
  (calculateDayScore default_day = 100 <-> areAllHabitsCompleted default_day = true).
Proof.
  assert (H : flags_derived default_day) by (intros []; reflexivity).
  split; [exact H | ].
  exact (proj2 (proj2 (calculateDayScore_range default_day)) H).
Defined.

Lemma calculateDayScore_not_100_with_all_flags :
  areAllHabitsCompleted flags_without_measurements = true /\
  calculateDayScore flags_without_measurements <> 100.
Proof. split; [reflexivity | discriminate]. Qed.

(* ------------------------------------------------------------------ *)
(** ** The current record                                               *)
(* ------------------------------------------------------------------ *)

Lemma getCurrentDayData_Some (appData : AppData) (dayData : DayData) :
  days appData !! currentDay appData = Some dayData ->
  getCurrentDayData appData = (dayData, appData).
Proof. intros H. unfold getCurrentDayData. now rewrite H. Qed.

Lemma getCurrentDayData_None (appData : AppData) :
  days appData !! currentDay appData = None ->
  getCurrentDayData appData =
  (default_day, store_day appData (currentDay appData) default_day).
Proof. intros H. unfold getCurrentDayData. now rewrite H. Qed.

Lemma current_record_Some (appData : AppData) (dayData : DayData) :
  days appData !! currentDay appData = Some dayData ->
  current_record appData = dayData.
Proof. intros H. unfold current_record. now rewrite (getCurrentDayData_Some _ _ H). Qed.

Lemma current_record_None (appData : AppData) :
  days appData !! currentDay appData = None ->
  current_record appData = default_day.
Proof. intros H. unfold current_record. now rewrite (getCurrentDayData_None _ H). Qed.

(** After the call the current day has the record that was returned, and
    nothing else has changed. *)
Lemma getCurrentDayData_state (appData : AppData) :
  snd (getCurrentDayData appData) =
  store_day appData (currentDay appData) (current_record appData).
Proof.
  unfold current_record, getCurrentDayData.
  destruct (days appData !! currentDay appData) as [dayData | ] eqn:E; simpl.
  - unfold store_day, set_days. rewrite (insert_id _ _ _ E). now destruct appData.
  - reflexivity.
Qed.

Lemma store_day_twice (appData : AppData) (day : Z) (d1 d2 : DayData) :
  store_day (store_day appData day d1) day d2 = store_day appData day d2.
Proof. unfold store_day, set_days. simpl. now rewrite insert_insert_eq. Qed.

Lemma getCurrentDayData_store (appData : AppData) (dayData : DayData) :
  getCurrentDayData (store_day appData (currentDay appData) dayData) =
  (dayData, store_day appData (currentDay appData) dayData).
Proof.
  apply getCurrentDayData_Some. simpl. apply lookup_insert_eq.
Qed.

Lemma completeCurrentDay_eq (appData : AppData) :
  completeCurrentDay appData =
  {| currentDay := if currentDay appData <? 100
                   then currentDay appData + 1 else currentDay appData;
     streak := streak appData + 1;
     days := <[currentDay appData := set_completed (current_record appData) true]>
               (days appData);
     whyStarted := whyStarted appData |}.
Proof.
  unfold completeCurrentDay.
  pose proof (getCurrentDayData_state appData) as Hs.
  unfold current_record in *.
  destruct (getCurrentDayData appData) as [dayData appData'].
  simpl in Hs. subst appData'. simpl.
  rewrite store_day_twice.
  destruct (currentDay appData <? 100); reflexivity.
Qed.

(* ------------------------------------------------------------------ *)
(** ** The three ways through [saveHabit]                               *)
(* ------------------------------------------------------------------ *)

Lemma saveHabit_rejected (appData : AppData) (habit : Habit) (value : Num) :
  accepted value = false ->
  saveHabit appData habit (Some value) = (InvalidInput, appData).
Proof.
  unfold accepted, saveHabit. intros H.
  apply negb_false_iff in H. now rewrite H.
Qed.

Lemma saveHabit_locked (appData : AppData) (habit : Habit) (value : Num) :
  accepted value = true ->
  completed (current_record appData) = true ->
  saveHabit appData habit (Some value) = (DayLocked, appData).
Proof.
  unfold accepted, saveHabit, current_record, getCurrentDayData.
  intros H Hc. apply negb_true_iff in H. rewrite H.
  destruct (days appData !! currentDay appData) as [dayData | ]; simpl in *.
  - now rewrite Hc.
  - discriminate Hc.
Qed.

Lemma saveHabit_accepted (appData : AppData) (habit : Habit) (value : Num) :
  accepted value = true ->
  completed (current_record appData) = false ->
  saveHabit appData habit (Some value) =
  let dayData := saved_record (current_record appData) habit value in
  let appData' := store_day appData (currentDay appData) dayData in
  if areAllHabitsCompleted dayData
  then (DayDone, completeCurrentDay appData')
  else if isHabitCompleted habit (VNum value)
       then (HabitDone, appData') else (HabitNotDone, appData').
Proof.
  unfold accepted. intros H Hc. apply negb_true_iff in H.
  unfold saveHabit. rewrite H.
  pose proof (getCurrentDayData_state appData) as Hs.
  unfold current_record in *.
  destruct (getCurrentDayData appData) as [dayData appData'].
  simpl in Hs, Hc. subst appData'. rewrite Hc.
  fold (saved_record dayData habit value).
  change (currentDay (store_day appData (currentDay appData) dayData))
    with (currentDay appData).
  rewrite store_day_twice.
  unfold updateScoreDisplay. rewrite getCurrentDayData_store.
  reflexivity.
Qed.

(** The sample state is what three good days make of the fresh state. *)
Lemma three_days_done_run :
  save_all (good_day ++ good_day ++ good_day) fresh = three_days_done.
Proof. vm_compute. reflexivity. Qed.

(* ------------------------------------------------------------------ *)
(** ** Completing a day                                                 *)
(* ------------------------------------------------------------------ *)

(** C1.  On a state whose current record has all five habits completed
    (the current day being at most 100, as in the data model),
    [completeCurrentDay] sets [completed] on that record and changes
    nothing else in it, adds exactly 1 to [streak] whatever the history
    holds, and adds 1 to [currentDay] unless it is 100, where it stays.
    No record is created: the stored days are the same, so day 101 has
    no record afterwards if it had none before. *)
Theorem completeCurrentDay_effect (appData : AppData) (dayData : DayData) :
  days appData !! currentDay appData = Some dayData ->
  areAllHabitsCompleted dayData = true ->
  currentDay appData <= 100 ->
  let appData' := completeCurrentDay appData in
  days appData' !! currentDay appData = Some (set_completed dayData true) /\
  completed (set_completed dayData true) = true /\
  streak appData' = streak appData + 1 /\
  currentDay appData' =
    (if decide (currentDay appData = 100) then 100 else currentDay appData + 1) /\
  (forall day, day <> currentDay appData ->
               days appData' !! day = days appData !! day) /\
  dom (days appData') = dom (days appData) /\
  (days appData !! 101 = None -> days appData' !! 101 = None) /\
  whyStarted appData' = whyStarted appData.
Proof.
  intros Hrec _ Hle appData'. subst appData'.
  rewrite completeCurrentDay_eq, (current_record_Some _ _ Hrec). simpl.
  split; [apply lookup_insert_eq | ].
  split; [reflexivity | ].
  split; [reflexivity | ].
  split.
  { case_decide as Hd.
    - rewrite Hd. reflexivity.
    - destruct (Z.ltb_spec (currentDay appData) 100) as [Hlt | Hge];
        [reflexivity | lia]. }
  split; [intros day Hne; now apply lookup_insert_ne | ].
  split.
  { apply dom_insert_lookup_L. now exists dayData. }
  split; [ | reflexivity].
  intros H101. rewrite lookup_insert_ne; [exact H101 | ].
  intros Heq. rewrite Heq, H101 in Hrec. discriminate.
Qed.

(** Day 100: the streak goes from 99 to 100, day 100 stays the current
    day and day 101 gets no record. *)
Lemma completeCurrentDay_effect_witness :
  days last_day_filled !! currentDay last_day_filled
    = Some (set_completed good_record false) /\
  areAllHabitsCompleted (set_completed good_record false) = true /\
  currentDay last_day_filled <= 100 /\
  streak (completeCurrentDay last_day_filled) = 99 + 1 /\
  currentDay (completeCurrentDay last_day_filled) = 100 /\
  days (completeCurrentDay last_day_filled) !! 101 = None.
Proof.
  assert (H1 : days last_day_filled !! currentDay last_day_filled
               = Some (set_completed good_record false))
    by (vm_compute; reflexivity).
  assert (H2 : areAllHabitsCompleted (set_completed good_record false) = true)
    by reflexivity.
  assert (H3 : currentDay last_day_filled <= 100) by (vm_compute; discriminate).
  split; [exact H1 | split; [exact H2 | split; [exact H3 | ]]].
  destruct (completeCurrentDay_effect last_day_filled _ H1 H2 H3)
    as (_ & _ & Hs & Hc & _ & _ & H101 & _).
  split; [exact Hs | split; [exact Hc | ]].
  apply H101. vm_compute. reflexivity.
Defined.

(* ------------------------------------------------------------------ *)
(** ** The streak walk                                                  *)
(* ------------------------------------------------------------------ *)

Lemma updateStreak_loop_acc (ds : gmap Z DayData) (day : nat) (acc : Z) :
  updateStreak_loop ds day acc = acc + updateStreak_loop ds day 0.
Proof.
  revert acc. induction day as [ | prev IH]; intros acc.
  - simpl. lia.
  - cbn [updateStreak_loop].
    destruct (ds !! Z.of_nat (S prev)) as [dayData | ]; [ | lia].
    destruct (completed dayData); [ | lia].
    rewrite (IH (acc + 1)), (IH (0 + 1)). lia.
Qed.

Lemma updateStreak_loop_step (ds : gmap Z DayData) (prev : nat) :
  updateStreak_loop ds (S prev) 0 =
  match ds !! Z.of_nat (S prev) with
  | Some dayData =>
      if completed dayData then 1 + updateStreak_loop ds prev 0 else 0
  | None => 0
  end.
Proof.
  cbn [updateStreak_loop].
  destruct (ds !! Z.of_nat (S prev)) as [dayData | ]; [ | reflexivity].
  destruct (completed dayData); [ | reflexivity].
  apply updateStreak_loop_acc.
Qed.

(** The counter the loop returns is the length of the run of completed
    days that ends at [day]. *)
Lemma updateStreak_loop_run (ds : gmap Z DayData) (day : nat) :
  let k := updateStreak_loop ds day 0 in
  0 <= k <= Z.of_nat day /\
  (forall d, Z.of_nat day - k < d <= Z.of_nat day -> day_completed ds d) /\
  (k < Z.of_nat day -> ~ day_completed ds (Z.of_nat day - k)).
Proof.
  induction day as [ | prev IH]; intros k; subst k.
  - simpl. split; [lia | split; [intros d Hd; lia | lia]].
  - rewrite updateStreak_loop_step.
    destruct (ds !! Z.of_nat (S prev)) as [dayData | ] eqn:E.
    + destruct (completed dayData) eqn:Ec.
      * destruct IH as (Hk & Hrun & Hstop).
        split; [lia | split].
        -- intros d Hd.
           destruct (Z.eq_dec d (Z.of_nat (S prev))) as [-> | Hne].
           ++ now exists dayData.
           ++ apply Hrun. lia.
        -- intros Hlt.
           replace (Z.of_nat (S prev) - (1 + updateStreak_loop ds prev 0))
             with (Z.of_nat prev - updateStreak_loop ds prev 0) by lia.
           apply Hstop. lia.
      * split; [lia | split; [intros d Hd; lia | ]].
        intros _ (dayData' & Hl & Hc). rewrite Z.sub_0_r, E in Hl.
        injection Hl as <-. congruence.
    + split; [lia | split; [intros d Hd; lia | ]].
      intros _ (dayData' & Hl & _). rewrite Z.sub_0_r, E in Hl. discriminate.
Qed.

(** C3 (as the code has it).  [updateStreak] sets [streak] to the length
    [k] of the maximal run of completed days [currentDay],
    [currentDay - 1], ...: the [k] days down from [currentDay] each have
    a completed record, and the walk stopped either below day 1 or at a
    day whose record is missing or not completed.  Nothing else changes.
    With days 1 to 3 completed, [currentDay] 4 and no record for day 4
    the walk stops at day 4 at once and the streak is 0; with the same
    days and [currentDay] 3 it is 3. *)
Theorem updateStreak_run (appData : AppData) :
  let k := streak (updateStreak appData) in
  let cur := currentDay appData in
  (0 <= k /\ k <= Z.max 0 cur /\
   (forall d, cur - k < d <= cur -> day_completed (days appData) d) /\
   (1 <= cur - k -> ~ day_completed (days appData) (cur - k))) /\
  (currentDay (updateStreak appData) = cur /\
   days (updateStreak appData) = days appData /\
   whyStarted (updateStreak appData) = whyStarted appData) /\
  streak (updateStreak three_days_done) = 0 /\
  streak (updateStreak (set_currentDay three_days_done 3)) = 3.
Proof.
  intros k cur. subst k cur.
  split; [ | split; [now split | split; reflexivity]].
  unfold updateStreak. cbn [streak set_streak].
  pose proof (updateStreak_loop_run (days appData) (Z.to_nat (currentDay appData)))
    as (Hk & Hrun & Hstop).
  destruct (Z.le_gt_cases 0 (currentDay appData)) as [Hpos | Hneg].
  - rewrite Z2Nat.id in Hk, Hrun, Hstop by exact Hpos.
    split; [lia | split; [lia | split; [exact Hrun | ]]].
    intros H1. apply Hstop. lia.
  - replace (Z.to_nat (currentDay appData)) with O in * by lia.
    simpl in *. split; [lia | split; [lia | split]].
    + intros d Hd. lia.
    + lia.
Qed.

Lemma updateStreak_three_days_done :
  currentDay three_days_done = 4 /\
  days three_days_done !! 4 = None /\
  (forall d, 1 <= d <= 3 -> day_completed (days three_days_done) d) /\
  streak (updateStreak three_days_done) <> 3.
Proof.
  split; [reflexivity | split; [reflexivity | split; [ | discriminate]]].
  intros d Hd. exists good_record.
  assert (d = 1 \/ d = 2 \/ d = 3) as [-> | [-> | ->]] by lia;
    split; reflexivity.
Qed.

(* ------------------------------------------------------------------ *)
(** ** Field updates                                                    *)
(* ------------------------------------------------------------------ *)

Lemma get_set_value (dayData : DayData) (h h' : Habit) (value : Value) :
  get_value (set_value dayData h value) h' =
  if decide (h = h') then value else get_value dayData h'.
Proof. destruct dayData, h, h'; reflexivity. Qed.

Lemma get_set_flag (ch : CompletedHabits) (h h' : Habit) (b : bool) :
  get_flag (set_flag ch h b) h' = if decide (h = h') then b else get_flag ch h'.
Proof. destruct ch, h, h'; reflexivity. Qed.

Lemma completedHabits_set_value (dayData : DayData) (h : Habit) (value : Value) :
  completedHabits (set_value dayData h value) = completedHabits dayData.
Proof. destruct dayData, h; reflexivity. Qed.

Lemma completed_set_value (dayData : DayData) (h : Habit) (value : Value) :
  completed (set_value dayData h value) = completed dayData.
Proof. destruct dayData, h; reflexivity. Qed.

Lemma set_completed_id (dayData : DayData) :
  completed dayData = true -> set_completed dayData true = dayData.
Proof. destruct dayData. simpl. now intros ->. Qed.

Lemma saved_record_value (dayData : DayData) (h h' : Habit) (value : Num) :
  get_value (saved_record dayData h value) h' =
  if decide (h = h') then VNum value else get_value dayData h'.
Proof.
  unfold saved_record.
  change (get_value (set_score ?d _) h') with (get_value d h').
  change (get_value (set_completedHabit ?d _ _) h') with (get_value d h').
  apply get_set_value.
Qed.

Lemma saved_record_flag (dayData : DayData) (h h' : Habit) (value : Num) :
  get_flag (completedHabits (saved_record dayData h value)) h' =
  if decide (h = h')
  then isHabitCompleted h (VNum value)
  else get_flag (completedHabits dayData) h'.
Proof.
  unfold saved_record. cbn [set_score set_completedHabit completedHabits].
  rewrite get_set_flag, completedHabits_set_value. reflexivity.
Qed.

Lemma saved_record_completed (dayData : DayData) (h : Habit) (value : Num) :
  completed (saved_record dayData h value) = completed dayData.
Proof.
  unfold saved_record. cbn [set_score set_completedHabit completed].
  apply completed_set_value.
Qed.

Lemma saved_record_score (dayData : DayData) (h : Habit) (value : Num) :
  score (saved_record dayData h value) =
  calculateDayScore (saved_record dayData h value).
Proof. destruct dayData, h; reflexivity. Qed.

(* ------------------------------------------------------------------ *)
(** ** Validation and the lock                                          *)
(* ------------------------------------------------------------------ *)

Lemma rejected_cases (v : Num) :
  accepted v = false <->
  v = NaN \/ v = NInf \/ exists q, v = Fin q /\ Qlt q 0.
Proof.
  unfold accepted. destruct v as [ | | | q]; simpl.
  - split; [now left | reflexivity].
  - split; [discriminate | ].
    intros [H | [H | (q & H & _)]]; discriminate.
  - split; [now right; left | reflexivity].
  - rewrite negb_involutive. change (inject_Z 0) with 0%Q. split.
    + intros H. right; right. exists q. split; [reflexivity | ].
      apply Qnot_le_lt. intros Hle. apply Qle_bool_iff in Hle. congruence.
    + intros [H | [H | (q' & H & Hq)]]; try discriminate.
      injection H as ->. destruct (Qle_bool 0 q') eqn:E; [ | reflexivity].
      apply Qle_bool_iff in E. exfalso. exact (Qlt_not_le _ _ Hq E).
Qed.

(** C5 (as the code has it).  An input that parses to NaN or to a number
    below 0 fails with [InvalidInput] and leaves the whole state as it
    was.  A value is recorded only for an input that parses to a number
    that is at least 0, and the recorded measurement is that number.
    The guard has no test for finiteness: the number may be
    [Infinity]. *)
Theorem saveHabit_validation (appData : AppData) (habit : Habit) (value : Num) :
  ((value = NaN \/ value = NInf \/ exists q, value = Fin q /\ Qlt q 0) ->
   saveHabit appData habit (Some value) = (InvalidInput, appData)) /\
  (recorded (fst (saveHabit appData habit (Some value))) = true ->
   (value = PInf \/ exists q, value = Fin q /\ Qle 0 q) /\
   exists dayData,
     days (snd (saveHabit appData habit (Some value))) !! currentDay appData
       = Some dayData /\
     get_value dayData habit = VNum value).
Proof.
  split.
  - intros H. apply saveHabit_rejected. now apply rejected_cases.
  - destruct (accepted value) eqn:Ha.
    + intros Hrec. split; [now apply accepted_cases | ].
      destruct (completed (current_record appData)) eqn:Hc.
      * rewrite (saveHabit_locked _ _ _ Ha Hc) in Hrec. discriminate.
      * clear Hrec. rewrite (saveHabit_accepted _ _ _ Ha Hc). cbv zeta.
        set (dayData := saved_record (current_record appData) habit value).
        assert (Hv : get_value dayData habit = VNum value).
        { unfold dayData. rewrite saved_record_value. now case_decide. }
        destruct (areAllHabitsCompleted dayData).
        -- cbn [snd]. rewrite completeCurrentDay_eq.
           cbn [days store_day set_days currentDay].
           rewrite lookup_insert_eq.
           eexists. split; [reflexivity | ].
           unfold current_record. rewrite getCurrentDayData_store. cbn [fst].
           destruct dayData; exact Hv.
        -- exists dayData. split; [ | exact Hv].
           destruct (isHabitCompleted habit (VNum value)); cbn [snd];
             apply lookup_insert_eq.
    + intros Hrec. rewrite (saveHabit_rejected _ _ _ Ha) in Hrec. discriminate.
Qed.

Lemma saveHabit_validation_witness :
  saveHabit fresh Sleep (Some NaN) = (InvalidInput, fresh) /\
  recorded (fst (saveHabit fresh Sleep (Some (num_of_Z 8)))) = true /\
  (num_of_Z 8 = PInf \/ exists q, num_of_Z 8 = Fin q /\ Qle 0 q).
Proof.
  split.
  - apply (proj1 (saveHabit_validation fresh Sleep NaN)). now left.
  - assert (H : recorded (fst (saveHabit fresh Sleep (Some (num_of_Z 8)))) = true)
      by reflexivity.
    split; [exact H | ].
    exact (proj1 (proj2 (saveHabit_validation fresh Sleep (num_of_Z 8)) H)).
Defined.

(** [Infinity] is not a finite number, and it is recorded. *)
Lemma saveHabit_records_Infinity :
  (forall q, PInf <> Fin q) /\
  fst (saveHabit fresh Sleep (Some PInf)) = HabitDone /\
  snd (saveHabit fresh Sleep (Some PInf)) <> fresh /\
  (exists dayData,
      days (snd (saveHabit fresh Sleep (Some PInf))) !! 1 = Some dayData /\
      sleep dayData = VNum PInf).
Proof.
  split; [intros q; discriminate | ].
  split; [reflexivity | ].
  split.
  - intros H. apply (f_equal (fun a => days a !! 1)) in H.
    vm_compute in H. discriminate.
  - eexists. split; [vm_compute; reflexivity | reflexivity].
Qed.

(** C4 (as the code has it).  On a state whose current record is
    completed, [saveHabit] changes nothing, whatever the habit and the
    input: the record keeps its measurements, flags, score and
    [completed].  The input is validated before the lock is looked at:
    an input that passes the validation fails with [DayLocked], and one
    that does not fails with [InvalidInput]. *)
Theorem saveHabit_on_locked_day
  (appData : AppData) (dayData : DayData) (habit : Habit) (value : Num) :
  days appData !! currentDay appData = Some dayData ->
  completed dayData = true ->
  fst (saveHabit appData habit (Some value)) =
    (if accepted value then DayLocked else InvalidInput) /\
  snd (saveHabit appData habit (Some value)) = appData /\
  days (snd (saveHabit appData habit (Some value))) !! currentDay appData
    = Some dayData.
Proof.
  intros Hrec Hc.
  assert (Hsave : saveHabit appData habit (Some value) =
                  (if accepted value then DayLocked else InvalidInput, appData)).
  { destruct (accepted value) eqn:Ha.
    - apply saveHabit_locked; [exact Ha | ].
      now rewrite (current_record_Some _ _ Hrec).
    - now apply saveHabit_rejected. }
  rewrite Hsave. cbn [fst snd]. auto.
Qed.

Lemma saveHabit_on_locked_day_witness :
  days challenge_done !! currentDay challenge_done = Some good_record /\
  completed good_record = true /\
  fst (saveHabit challenge_done Water (Some (num_of_Z 9))) = DayLocked /\
  snd (saveHabit challenge_done Water (Some (num_of_Z 9))) = challenge_done.
Proof.
  assert (H1 : days challenge_done !! currentDay challenge_done = Some good_record)
    by (vm_compute; reflexivity).
  assert (H2 : completed good_record = true) by reflexivity.
  split; [exact H1 | split; [exact H2 | ]].
  destruct (saveHabit_on_locked_day challenge_done good_record Water
              (num_of_Z 9) H1 H2) as (Ho & Hs & _).
  split; [exact Ho | exact Hs].
Defined.

(** On the locked day 100 an input that does not parse to a number is
    answered with [InvalidInput], not with [DayLocked]. *)
Lemma saveHabit_locked_day_invalid_input :
  days challenge_done !! currentDay challenge_done = Some good_record /\
  completed good_record = true /\
  fst (saveHabit challenge_done Sleep (Some NaN)) = InvalidInput /\
  fst (saveHabit challenge_done Sleep (Some NaN)) <> DayLocked.
Proof.
  split; [vm_compute; reflexivity | ].
  split; [reflexivity | split; [reflexivity | discriminate]].
Qed.

(* ------------------------------------------------------------------ *)
(** ** What [saveHabit] leaves alone                                    *)
(* ------------------------------------------------------------------ *)

(** C10.  On a state whose current day is not completed, [saveHabit]
    with an input that passes the validation leaves the current record
    with the measurements and flags of the four other habits as they
    were (as in the default record, if the day had none), keeps every
    other day's record and [whyStarted], and changes [streak] and
    [currentDay] only when the record ends with all five habits
    completed, which is when [completeCurrentDay] runs. *)
Theorem saveHabit_frame (appData : AppData) (habit : Habit) (value : Num) :
  completed (current_record appData) = false ->
  accepted value = true ->
  let before := current_record appData in
  let outcome := fst (saveHabit appData habit (Some value)) in
  let appData' := snd (saveHabit appData habit (Some value)) in
  exists after,
    days appData' !! currentDay appData = Some after /\
    (forall h, h <> habit ->
               get_value after h = get_value before h /\
               get_flag (completedHabits after) h =
               get_flag (completedHabits before) h) /\
    (forall day, day <> currentDay appData ->
                 days appData' !! day = days appData !! day) /\
    whyStarted appData' = whyStarted appData /\
    (outcome = DayDone <-> areAllHabitsCompleted after = true) /\
    (areAllHabitsCompleted after = false ->
     streak appData' = streak appData /\
     currentDay appData' = currentDay appData).
Proof.
  intros Hc Ha before outcome appData'. subst before outcome appData'.
  rewrite (saveHabit_accepted _ _ _ Ha Hc). cbv zeta.
  set (dayData := saved_record (current_record appData) habit value).
  assert (Hframe : forall h, h <> habit ->
            get_value dayData h = get_value (current_record appData) h /\
            get_flag (completedHabits dayData) h =
            get_flag (completedHabits (current_record appData)) h).
  { intros h Hne. unfold dayData.
    rewrite saved_record_value, saved_record_flag.
    case_decide; [congruence | now split]. }
  destruct (areAllHabitsCompleted dayData) eqn:Hall.
  - exists (set_completed dayData true). cbn [fst snd].
    rewrite completeCurrentDay_eq.
    cbn [days store_day set_days currentDay whyStarted streak].
    unfold current_record at 1. rewrite getCurrentDayData_store. cbn [fst].
    split; [apply lookup_insert_eq | ].
    split; [exact Hframe | ].
    split; [intros day Hne; now rewrite !lookup_insert_ne | ].
    split; [reflexivity | ].
    split; [now split | ].
    change (areAllHabitsCompleted (set_completed dayData true))
      with (areAllHabitsCompleted dayData).
    congruence.
  - exists dayData.
    destruct (isHabitCompleted habit (VNum value)); cbn [fst snd];
      (split; [apply lookup_insert_eq | ]);
      (split; [exact Hframe | ]);
      (split; [intros day Hne; now apply lookup_insert_ne | ]);
      (split; [reflexivity | ]);
      (split; [split; intros H; [discriminate H | congruence] | ]);
      intros _; split; reflexivity.
Qed.

Lemma saveHabit_frame_witness :
  completed (current_record fresh) = false /\
  accepted (num_of_Z 8) = true /\
  whyStarted (snd (saveHabit fresh Sleep (Some (num_of_Z 8)))) = whyStarted fresh.
Proof.
  assert (H1 : completed (current_record fresh) = false) by reflexivity.
  assert (H2 : accepted (num_of_Z 8) = true) by reflexivity.
  split; [exact H1 | split; [exact H2 | ]].
  destruct (saveHabit_frame fresh Sleep (num_of_Z 8) H1 H2)
    as (after & _ & _ & _ & Hw & _).
  exact Hw.
Defined.

(* ------------------------------------------------------------------ *)
(** ** A completed record stays                                         *)
(* ------------------------------------------------------------------ *)

Lemma saveHabit_outcomes (appData : AppData) (habit : Habit) (input : option Num) :
  snd (saveHabit appData habit input) = appData \/
  exists value,
    input = Some value /\ accepted value = true /\
    completed (current_record appData) = false /\
    let dayData := saved_record (current_record appData) habit value in
    let appData' := store_day appData (currentDay appData) dayData in
    snd (saveHabit appData habit input) =
    if areAllHabitsCompleted dayData then completeCurrentDay appData' else appData'.
Proof.
  destruct input as [value | ]; [ | now left].
  destruct (accepted value) eqn:Ha.
  - destruct (completed (current_record appData)) eqn:Hc.
    + left. now rewrite (saveHabit_locked _ _ _ Ha Hc).
    + right. exists value. repeat (split; [easy | ]).
      rewrite (saveHabit_accepted _ _ _ Ha Hc). cbv zeta.
      destruct (areAllHabitsCompleted _); [reflexivity | ].
      now destruct (isHabitCompleted habit (VNum value)).
  - left. now rewrite (saveHabit_rejected _ _ _ Ha).
Qed.

(** After [saveHabit] the state is the one before, or the one with the
    saved record stored, completed or not. *)
Tactic Notation "save_cases" constr(appData) constr(habit) constr(input)
    "as" ident(value) ident(Hopen) :=
  let Hsnd := fresh "Hsnd" in
  destruct (saveHabit_outcomes appData habit input)
    as [-> | (value & _ & _ & Hopen & Hsnd)];
  [ | cbv zeta in Hsnd; rewrite Hsnd; clear Hsnd ].

Section CompletedStays.

Variable day : Z.
Variable dayData : DayData.
Hypothesis Hcompleted : completed dayData = true.

Lemma completeCurrentDay_keeps (appData : AppData) :
  days appData !! day = Some dayData ->
  days (completeCurrentDay appData) !! day = Some dayData.
Proof.
  intros Hrec. rewrite completeCurrentDay_eq. cbn [days].
  destruct (Z.eq_dec (currentDay appData) day) as [Heq | Hne].
  - rewrite Heq in *. rewrite lookup_insert_eq.
    rewrite (current_record_Some appData dayData) by now rewrite Heq.
    now rewrite set_completed_id.
  - now rewrite lookup_insert_ne.
Qed.

Lemma core_step_keeps (appData appData' : AppData) :
  core_step appData appData' ->
  days appData !! day = Some dayData ->
  days appData' !! day = Some dayData.
Proof.
  intros Hstep Hrec. destruct Hstep as [a habit input | a | a | a | a text].
  - save_cases a habit input as value Hopen; [exact Hrec | ].
    assert (Hne : currentDay a <> day).
    { intros Heq. rewrite (current_record_Some a dayData) in Hopen
        by now rewrite Heq.
      congruence. }
    assert (Hst : days (store_day a (currentDay a)
                          (saved_record (current_record a) habit value)) !! day
                  = Some dayData).
    { cbn [days store_day set_days]. now rewrite lookup_insert_ne. }
    destruct (areAllHabitsCompleted _); [ | exact Hst].
    now apply completeCurrentDay_keeps.
  - now apply completeCurrentDay_keeps.
  - exact Hrec.
  - rewrite getCurrentDayData_state. cbn [days store_day set_days].
    destruct (Z.eq_dec (currentDay a) day) as [Heq | Hne].
    + rewrite (current_record_Some a dayData) by now rewrite Heq.
      rewrite Heq. apply lookup_insert_eq.
    + now rewrite lookup_insert_ne.
  - exact Hrec.
Qed.

(** C8.  A record that is completed is not touched again: after any
    sequence of [saveHabit], [completeCurrentDay], [updateStreak] (and of
    the other calls that keep the challenge going) the day still has the
    same record, so [completed] is still true.  [restartChallenge], once
    it goes ahead, leaves no day record at all. *)
Theorem completed_is_monotonic (appData appData' : AppData) :
  days appData !! day = Some dayData ->
  (rtc core_step appData appData' ->
   days appData' !! day = Some dayData /\ day_completed (days appData') day) /\
  (forall answer, days (restartChallenge appData true answer) = ∅) /\
  (forall answer1 answer2,
      restartChallenge appData answer1 answer2 = appData \/
      days (restartChallenge appData answer1 answer2) = ∅).
Proof.
  intros Hrec. split; [ | split].
  - intros Hsteps.
    assert (H : days appData' !! day = Some dayData).
    { induction Hsteps as [a | a b c Hstep _ IH]; [exact Hrec | ].
      apply IH. exact (core_step_keeps _ _ Hstep Hrec). }
    split; [exact H | now exists dayData].
  - intros answer. unfold restartChallenge.
    destruct (_ && _); reflexivity.
  - intros answer1 answer2. unfold restartChallenge.
    destruct (_ && _); [ | now right].
    destruct answer1; [now right | now left].
Qed.

End CompletedStays.

Lemma completed_is_monotonic_witness :
  days three_days_done !! 2 = Some good_record /\
  completed good_record = true /\
  rtc core_step three_days_done
    (snd (saveHabit three_days_done Sleep (Some (num_of_Z 8)))) /\
  day_completed
    (days (snd (saveHabit three_days_done Sleep (Some (num_of_Z 8))))) 2.
Proof.
  assert (H1 : days three_days_done !! 2 = Some good_record) by reflexivity.
  assert (H2 : completed good_record = true) by reflexivity.
  assert (H3 : rtc core_step three_days_done
                 (snd (saveHabit three_days_done Sleep (Some (num_of_Z 8))))).
  { apply rtc_once. apply step_saveHabit. }
  split; [exact H1 | split; [exact H2 | split; [exact H3 | ]]].
  exact (proj2 (proj1 (completed_is_monotonic 2 good_record H2 _ _ H1) H3)).
Defined.

(* ------------------------------------------------------------------ *)
(** ** The invariants of the records                                    *)
(* ------------------------------------------------------------------ *)

Lemma record_ok_default : record_ok default_day.
Proof.
  split.
  - intros []; reflexivity.
  - reflexivity.
  - discriminate.
Qed.

Lemma record_ok_saved (dayData : DayData) (habit : Habit) (value : Num) :
  record_ok dayData ->
  completed dayData = false ->
  record_ok (saved_record dayData habit value).
Proof.
  intros [Hflags _ _] Hc. split.
  - intros h. rewrite saved_record_flag, saved_record_value.
    case_decide as Hd; [now subst h | apply Hflags].
  - apply saved_record_score.
  - rewrite saved_record_completed. congruence.
Qed.

Lemma record_ok_completed (dayData : DayData) :
  record_ok dayData ->
  areAllHabitsCompleted dayData = true ->
  record_ok (set_completed dayData true).
Proof.
  intros [Hflags Hscore _] Hall. split.
  - exact Hflags.
  - exact Hscore.
  - intros _. now apply areAllHabitsCompleted_all_flags.
Qed.

Lemma days_ok_store (appData : AppData) (day : Z) (dayData : DayData) :
  days_ok appData -> record_ok dayData -> days_ok (store_day appData day dayData).
Proof.
  intros Hok Hrec day' dayData'. cbn [days store_day set_days].
  rewrite lookup_insert. case_decide.
  - now intros [= <-].
  - apply Hok.
Qed.

Lemma current_record_ok (appData : AppData) :
  days_ok appData -> record_ok (current_record appData).
Proof.
  intros Hok.
  destruct (days appData !! currentDay appData) as [dayData | ] eqn:E.
  - rewrite (current_record_Some _ _ E). exact (Hok _ _ E).
  - rewrite (current_record_None _ E). exact record_ok_default.
Qed.

Create HintDb record_ok.
#[local] Hint Resolve record_ok_default record_ok_saved record_ok_completed
  current_record_ok days_ok_store : record_ok.

Lemma days_ok_completeCurrentDay (appData : AppData) :
  days_ok appData ->
  areAllHabitsCompleted (current_record appData) = true ->
  days_ok (completeCurrentDay appData).
Proof.
  intros Hok Hall. rewrite completeCurrentDay_eq.
  intros day dayData. cbn [days]. rewrite lookup_insert. case_decide.
  - intros [= <-]. auto with record_ok.
  - apply Hok.
Qed.

Lemma days_ok_saveHabit (appData : AppData) (habit : Habit) (input : option Num) :
  days_ok appData -> days_ok (snd (saveHabit appData habit input)).
Proof.
  intros Hok.
  save_cases appData habit input as value Hopen; [exact Hok | ].
  set (dayData := saved_record (current_record appData) habit value).
  assert (Hst : days_ok (store_day appData (currentDay appData) dayData))
    by (unfold dayData; auto with record_ok).
  destruct (areAllHabitsCompleted dayData) eqn:Hall; [ | exact Hst].
  apply days_ok_completeCurrentDay; [exact Hst | ].
  unfold current_record. rewrite getCurrentDayData_store. exact Hall.
Qed.

(** C6 on a run with a load of the page.  The text Infinity is accepted
    for Sleep on day 1 and sets the flag; [saveData] writes the
    measurement as [null]; after a load of the page the four other
    habits are saved with good values.  Day 1 is then completed with its
    five flags set and a score of 80, where the flags count 100: the
    score does not count the flag whose measurement was lost. *)
Theorem page_load_breaks_score_invariant :
  reachable infinity_day_done /\
  exists dayData,
    days infinity_day_done !! 1 = Some dayData /\
    completed dayData = true /\
    (forall habit, get_flag (completedHabits dayData) habit = true) /\
    sleep dayData = VNull /\
    score dayData = 80 /\
    flag_points (completedHabits dayData) = 100.
Proof.
  split.
  - unfold infinity_day_done, infinity_reloaded, save_all. cbn [fold_left].
    repeat apply reach_saveHabit. apply reach_page_load, reach_saveHabit.
    apply reach_fresh.
  - eexists. split; [vm_compute; reflexivity | ].
    split; [reflexivity | ].
    split; [intros []; reflexivity | ].
    repeat split.
Qed.

(* ------------------------------------------------------------------ *)
(** ** The guards of [init]                                             *)
(* ------------------------------------------------------------------ *)

Lemma init_ensure_valid_eq (raw : RawData) :
  init_ensure_valid raw =
  {| raw_currentDay :=
       if negb (typeof_number (raw_currentDay raw)) || js_lt_Z (raw_currentDay raw) 1
       then JNumber (num_of_Z 1) else raw_currentDay raw;
     raw_streak :=
       if negb (typeof_number (raw_streak raw)) || js_lt_Z (raw_streak raw) 0
       then JNumber (num_of_Z 0) else raw_streak raw;
     raw_days := if js_not (raw_days raw) then JObject ∅ else raw_days raw;
     raw_whyStarted := raw_whyStarted raw |}.
Proof.
  destruct raw as [cd st ds why]. unfold init_ensure_valid. simpl.
  destruct (js_not ds); simpl;
    destruct (negb (typeof_number cd) || js_lt_Z cd 1); simpl;
    destruct (negb (typeof_number st) || js_lt_Z st 0); reflexivity.
Qed.

Lemma guarded_number (v : JSVal unit) (k : Z) :
  js_lt (num_of_Z k) (num_of_Z k) = false ->
  exists n,
    (if negb (typeof_number v) || js_lt_Z v k then JNumber (num_of_Z k) else v)
    = JNumber n /\ js_lt n (num_of_Z k) = false.
Proof.
  intros Hk.
  destruct v as [ | | b | n | s | o]; cbn [typeof_number negb orb js_lt_Z]; eauto.
  destruct (js_lt n (num_of_Z k)) eqn:E; eauto.
Qed.

(** What the guards do achieve: a missing [days] becomes the empty map,
    and afterwards [currentDay] is a number not below 1 and [streak] a
    number not below 0. *)
Lemma init_ensure_valid_lower_bounds (raw : RawData) :
  (exists n, raw_currentDay (init_ensure_valid raw) = JNumber n /\
             js_lt n (num_of_Z 1) = false) /\
  (exists n, raw_streak (init_ensure_valid raw) = JNumber n /\
             js_lt n (num_of_Z 0) = false) /\
  (js_not (raw_days raw) = true ->
   raw_days (init_ensure_valid raw) = JObject ∅).
Proof.
  rewrite init_ensure_valid_eq. cbn [raw_currentDay raw_streak raw_days].
  split; [now apply guarded_number | split; [now apply guarded_number | ]].
  now intros ->.
Qed.

(** C9 at a stored [currentDay] of 150: the guards of [init] test the
    lower bound only, so the value stays as stored and is not a day
    number from 1 to 100. *)
Theorem init_keeps_day_150 :
  raw_currentDay (init_ensure_valid stored_day_150) = JNumber (num_of_Z 150) /\
  ~ valid_day_number (raw_currentDay (init_ensure_valid stored_day_150)).
Proof.
  split; [reflexivity | ].
  intros (q & d & Hv & Hq & Hd).
  vm_compute in Hv. injection Hv as <-.
  unfold Qeq, inject_Z in Hq. simpl in Hq. lia.
Qed.

(* ------------------------------------------------------------------ *)
(** ** The scenarios of the challenge, run on the model                 *)
(* ------------------------------------------------------------------ *)

(** Day 1, sleep 8: the flag is set, the score is 20, the day is open. *)
Example first_habit_saved :
  saveHabit fresh Sleep (Some (num_of_Z 8)) =
  (HabitDone,
   store_day fresh 1
     (set_score (set_completedHabit (set_value default_day Sleep (VNum (num_of_Z 8)))
                   Sleep true) 20)).
Proof. vm_compute. reflexivity. Qed.

(** Day 1 with five good inputs: day 1 is completed with score 100, the
    streak is 1 and day 2 is the current day. *)
Example first_day_done :
  save_all good_day fresh =
  {| currentDay := 2; streak := 1; days := <[1 := good_record]> ∅;
     whyStarted := EmptyString |}.
Proof. vm_compute. reflexivity. Qed.

(** 2600 calories are above the maximum: the value is kept, the flag is
    not set and Food adds nothing to the score. *)
Example food_above_max :
  fst (saveHabit fresh Food (Some (num_of_Z 2600))) = HabitNotDone /\
  days (snd (saveHabit fresh Food (Some (num_of_Z 2600)))) !! 1 =
  Some (set_value default_day Food (VNum (num_of_Z 2600))).
Proof. split; vm_compute; reflexivity. Qed.

(** The finished challenge, and a further input on day 100. *)
Example challenge_done_state :
  currentDay challenge_done = 100 /\
  streak challenge_done = 100 /\
  days challenge_done !! 100 = Some good_record /\
  days challenge_done !! 101 = None /\
  saveHabit challenge_done Sleep (Some (num_of_Z 8)) = (DayLocked, challenge_done).
Proof. vm_compute. repeat split. Qed.

(** A restart from day 4 asks nothing and keeps the motivation text. *)
Example restart_keeps_motivation (text : string) (answer1 answer2 : bool) :
  restartChallenge (saveWhy three_days_done text) answer1 answer2 =
  {| currentDay := 1; streak := 0; days := ∅; whyStarted := text |}.
Proof. reflexivity. Qed.

(* ------------------------------------------------------------------ *)
(** ** More on the current record and on [saveHabit]                    *)
(* ------------------------------------------------------------------ *)

(** X1.  [getCurrentDayData] never overwrites: every record that was
    stored, the current day's included, is still stored; the only entry
    it can add is the default record for the current day; and a second
    call returns the same record and changes nothing more. *)
Theorem getCurrentDayData_creates_once (appData : AppData) :
  (forall day dayData,
      days appData !! day = Some dayData ->
      days (snd (getCurrentDayData appData)) !! day = Some dayData) /\
  (forall day dayData,
      days (snd (getCurrentDayData appData)) !! day = Some dayData ->
      days appData !! day = Some dayData \/
      (day = currentDay appData /\ dayData = default_day /\
       days appData !! day = None)) /\
  days (snd (getCurrentDayData appData)) !! currentDay appData
    = Some (fst (getCurrentDayData appData)) /\
  getCurrentDayData (snd (getCurrentDayData appData))
    = (fst (getCurrentDayData appData), snd (getCurrentDayData appData)).
Proof.
  destruct (days appData !! currentDay appData) as [current | ] eqn:E;
    [ rewrite (getCurrentDayData_Some _ _ E)
    | rewrite (getCurrentDayData_None _ E) ]; cbn [fst snd].
  - split; [auto | split; [auto | split; [exact E | ]]].
    now apply getCurrentDayData_Some.
  - split; [ | split; [ | split]].
    + intros day dayData H. cbn [days store_day set_days].
      rewrite lookup_insert_ne; [exact H | congruence].
    + intros day dayData. cbn [days store_day set_days].
      rewrite lookup_insert. case_decide as Hd.
      * intros [= <-]. right. subst day. auto.
      * auto.
    + apply lookup_insert_eq.
    + apply getCurrentDayData_store.
Qed.

Lemma saved_record_twice (dayData : DayData) (habit : Habit) (v1 v2 : Num) :
  saved_record (saved_record dayData habit v1) habit v2 =
  saved_record dayData habit v2.
Proof. destruct dayData as [? ? ? ? ? []], habit; reflexivity. Qed.

Lemma saved_record_swap (dayData : DayData) (h1 h2 : Habit) (v1 v2 : Num) :
  h1 <> h2 ->
  saved_record (saved_record dayData h1 v1) h2 v2 =
  saved_record (saved_record dayData h2 v2) h1 v1.
Proof.
  intros Hne. destruct dayData as [? ? ? ? ? []], h1, h2;
    first [congruence | reflexivity].
Qed.

Lemma current_record_store (appData : AppData) (dayData : DayData) :
  current_record (store_day appData (currentDay appData) dayData) = dayData.
Proof. unfold current_record. now rewrite getCurrentDayData_store. Qed.

(** The state after a save that went through and did not complete the
    day. *)
Lemma saveHabit_open_not_done
  (appData : AppData) (habit : Habit) (value : Num) :
  accepted value = true ->
  completed (current_record appData) = false ->
  fst (saveHabit appData habit (Some value)) <> DayDone ->
  snd (saveHabit appData habit (Some value)) =
  store_day appData (currentDay appData)
    (saved_record (current_record appData) habit value).
Proof.
  intros Ha Hc. rewrite (saveHabit_accepted _ _ _ Ha Hc). cbv zeta.
  destruct (areAllHabitsCompleted _); cbn [fst snd]; [congruence | ].
  now destruct (isHabitCompleted habit (VNum value)).
Qed.

(** X2.  The last value wins.  When a save leaves the day open (its
    outcome is not the completion of the day), a second accepted save for
    the same habit gives the outcome and the state that it would have
    given without the first: nothing of the first value is kept. *)
Theorem saveHabit_last_value_wins
  (appData : AppData) (habit : Habit) (input : option Num) (value : Num) :
  fst (saveHabit appData habit input) <> DayDone ->
  accepted value = true ->
  saveHabit (snd (saveHabit appData habit input)) habit (Some value) =
  saveHabit appData habit (Some value).
Proof.
  intros Hnot Ha.
  destruct input as [v1 | ]; [ | reflexivity].
  destruct (accepted v1) eqn:Ha1;
    [ | now rewrite (saveHabit_rejected _ _ _ Ha1)].
  destruct (completed (current_record appData)) eqn:Hc;
    [now rewrite (saveHabit_locked _ _ _ Ha1 Hc) | ].
  rewrite (saveHabit_open_not_done _ _ _ Ha1 Hc Hnot).
  rewrite !saveHabit_accepted; try assumption.
  - cbv zeta. rewrite current_record_store, saved_record_twice.
    cbn [currentDay store_day set_days]. rewrite store_day_twice. reflexivity.
  - rewrite current_record_store. now rewrite saved_record_completed.
Qed.

Lemma saveHabit_last_value_wins_witness :
  fst (saveHabit fresh Food (Some (num_of_Z 2600))) <> DayDone /\
  accepted (num_of_Z 2200) = true /\
  saveHabit (snd (saveHabit fresh Food (Some (num_of_Z 2600)))) Food
    (Some (num_of_Z 2200))
  = saveHabit fresh Food (Some (num_of_Z 2200)).
Proof.
  assert (H1 : fst (saveHabit fresh Food (Some (num_of_Z 2600))) <> DayDone)
    by (vm_compute; discriminate).
  assert (H2 : accepted (num_of_Z 2200) = true) by reflexivity.
  split; [exact H1 | split; [exact H2 | ]].
  exact (saveHabit_last_value_wins fresh Food (Some (num_of_Z 2600))
           (num_of_Z 2200) H1 H2).
Defined.

(** X3.  Saves for two different habits can be entered in either order:
    when neither of them alone completes the day, the state after both
    is the same. *)
Theorem saveHabit_order_irrelevant
  (appData : AppData) (h1 h2 : Habit) (v1 v2 : Num) :
  h1 <> h2 ->
  accepted v1 = true ->
  accepted v2 = true ->
  fst (saveHabit appData h1 (Some v1)) <> DayDone ->
  fst (saveHabit appData h2 (Some v2)) <> DayDone ->
  snd (saveHabit (snd (saveHabit appData h1 (Some v1))) h2 (Some v2)) =
  snd (saveHabit (snd (saveHabit appData h2 (Some v2))) h1 (Some v1)).
Proof.
  intros Hne Ha1 Ha2 Hn1 Hn2.
  destruct (completed (current_record appData)) eqn:Hc.
  - rewrite (saveHabit_locked _ h1 _ Ha1 Hc), (saveHabit_locked _ h2 _ Ha2 Hc).
    cbn [snd].
    now rewrite (saveHabit_locked _ h1 _ Ha1 Hc), (saveHabit_locked _ h2 _ Ha2 Hc).
  - rewrite (saveHabit_open_not_done _ _ _ Ha1 Hc Hn1).
    rewrite (saveHabit_open_not_done _ _ _ Ha2 Hc Hn2).
    rewrite !saveHabit_accepted; try assumption;
      try (rewrite current_record_store; now rewrite saved_record_completed).
    cbv zeta. rewrite !current_record_store.
    cbn [currentDay store_day set_days]. rewrite !store_day_twice.
    rewrite (saved_record_swap _ h1 h2 v1 v2 Hne).
    destruct (areAllHabitsCompleted _); cbn [snd]; [reflexivity | ].
    destruct (isHabitCompleted h2 (VNum v2)), (isHabitCompleted h1 (VNum v1));
      reflexivity.
Qed.

Lemma saveHabit_order_irrelevant_witness :
  Sleep <> Water /\
  accepted (num_of_Z 8) = true /\
  fst (saveHabit fresh Sleep (Some (num_of_Z 8))) <> DayDone /\
  fst (saveHabit fresh Water (Some (num_of_Z 8))) <> DayDone /\
  snd (saveHabit (snd (saveHabit fresh Sleep (Some (num_of_Z 8)))) Water
         (Some (num_of_Z 8))) =
  snd (saveHabit (snd (saveHabit fresh Water (Some (num_of_Z 8)))) Sleep
         (Some (num_of_Z 8))).
Proof.
  assert (H0 : Sleep <> Water) by discriminate.
  assert (H1 : accepted (num_of_Z 8) = true) by reflexivity.
  assert (H2 : fst (saveHabit fresh Sleep (Some (num_of_Z 8))) <> DayDone)
    by (vm_compute; discriminate).
  assert (H3 : fst (saveHabit fresh Water (Some (num_of_Z 8))) <> DayDone)
    by (vm_compute; discriminate).
  split; [exact H0 | split; [exact H1 | split; [exact H2 | split; [exact H3 | ]]]].
  exact (saveHabit_order_irrelevant fresh Sleep Water _ _ H0 H1 H1 H2 H3).
Defined.

Lemma others_done_iff (dayData : DayData) (habit : Habit) :
  others_done dayData habit = true <->
  forall h, h <> habit -> get_flag (completedHabits dayData) h = true.
Proof.
  unfold others_done. rewrite forallb_forall. split.
  - intros H h Hne. specialize (H h).
    rewrite orb_true_iff, bool_decide_eq_true in H.
    destruct H as [H | H]; [ | congruence | exact H].
    destruct h; simpl; tauto.
  - intros H h _. rewrite orb_true_iff, bool_decide_eq_true.
    destruct (decide (h = habit)); auto.
Qed.

Lemma areAllHabitsCompleted_saved (dayData : DayData) (habit : Habit) (value : Num) :
  areAllHabitsCompleted (saved_record dayData habit value) =
  isHabitCompleted habit (VNum value) && others_done dayData habit.
Proof.
  apply eq_true_iff_eq.
  rewrite areAllHabitsCompleted_all_flags, andb_true_iff, others_done_iff.
  unfold all_flags. split.
  - intros H. split.
    + specialize (H habit). rewrite saved_record_flag in H.
      now case_decide.
    + intros h Hne. specialize (H h). rewrite saved_record_flag in H.
      case_decide; [congruence | exact H].
  - intros [Hc Ho] h. rewrite saved_record_flag.
    case_decide as Hd; [exact Hc | apply Ho; congruence].
Qed.

(** X4.  Which message a save ends with.  An input that fails the guard
    is answered with the invalid-number alert, also on a locked day; an
    accepted input on a completed day with the locked alert; otherwise
    the day is completed exactly when the value meets the rule of its
    habit and the flags of the four other habits were already set, and
    the toast says whether the habit itself is completed. *)
Theorem saveHabit_outcome (appData : AppData) (habit : Habit) (value : Num) :
  fst (saveHabit appData habit (Some value)) =
  if negb (accepted value) then InvalidInput
  else if completed (current_record appData) then DayLocked
  else if isHabitCompleted habit (VNum value)
       then (if others_done (current_record appData) habit
             then DayDone else HabitDone)
       else HabitNotDone.
Proof.
  destruct (accepted value) eqn:Ha; cbn [negb];
    [ | now rewrite (saveHabit_rejected _ _ _ Ha)].
  destruct (completed (current_record appData)) eqn:Hc;
    [now rewrite (saveHabit_locked _ _ _ Ha Hc) | ].
  rewrite (saveHabit_accepted _ _ _ Ha Hc). cbv zeta.
  rewrite areAllHabitsCompleted_saved.
  destruct (isHabitCompleted habit (VNum value)); cbn [andb]; [ | reflexivity].
  now destruct (others_done (current_record appData) habit).
Qed.

(** X5.  What a save can do to the counters.  Unless a value was
    recorded the state is untouched: no alert path creates a record.
    The streak grows by one exactly when the day is completed, the
    current day moves by one exactly when the day is completed below day
    100, and neither ever moves otherwise; the text [whyStarted] and the
    records of the other days are never touched. *)
Theorem saveHabit_small_step
  (appData : AppData) (habit : Habit) (input : option Num) :
  let outcome := fst (saveHabit appData habit input) in
  let appData' := snd (saveHabit appData habit input) in
  (recorded outcome = false -> appData' = appData) /\
  streak appData' =
    streak appData + (match outcome with DayDone => 1 | _ => 0 end) /\
  currentDay appData' =
    currentDay appData +
    (match outcome with
     | DayDone => if currentDay appData <? 100 then 1 else 0
     | _ => 0
     end) /\
  whyStarted appData' = whyStarted appData /\
  (forall day, day <> currentDay appData ->
               days appData' !! day = days appData !! day).
Proof.
  intros outcome appData'. subst outcome appData'.
  destruct input as [value | ];
    [ | cbn; repeat split; lia].
  destruct (accepted value) eqn:Ha;
    [ | rewrite (saveHabit_rejected _ _ _ Ha); cbn; repeat split; lia].
  destruct (completed (current_record appData)) eqn:Hc;
    [rewrite (saveHabit_locked _ _ _ Ha Hc); cbn; repeat split; lia | ].
  rewrite (saveHabit_accepted _ _ _ Ha Hc). cbv zeta.
  destruct (areAllHabitsCompleted _).
  - cbn [fst snd recorded]. rewrite completeCurrentDay_eq.
    cbn [streak currentDay whyStarted days store_day set_days].
    split; [discriminate | ].
    split; [reflexivity | ].
    split; [destruct (currentDay appData <? 100); lia | ].
    split; [reflexivity | ].
    intros day Hne. now rewrite !lookup_insert_ne.
  - destruct (isHabitCompleted habit (VNum value));
      cbn [fst snd recorded streak currentDay whyStarted days store_day set_days];
      (split; [discriminate | ]);
      (split; [lia | ]); (split; [lia | ]); (split; [reflexivity | ]);
      intros day Hne; now rewrite lookup_insert_ne.
Qed.

Lemma saveHabit_small_step_witness :
  recorded (fst (saveHabit challenge_done Sleep (Some (num_of_Z 8)))) = false /\
  snd (saveHabit challenge_done Sleep (Some (num_of_Z 8))) = challenge_done.
Proof.
  assert (H : recorded (fst (saveHabit challenge_done Sleep (Some (num_of_Z 8))))
              = false) by (vm_compute; reflexivity).
  split; [exact H | ].
  exact (proj1 (saveHabit_small_step challenge_done Sleep (Some (num_of_Z 8))) H).
Defined.

Lemma calculateDayScore_saved (dayData : DayData) (habit : Habit) (value : Num) :
  calculateDayScore (saved_record dayData habit value) =
  calculateDayScore dayData
  - calculateHabitScore habit (get_value dayData habit)
  + calculateHabitScore habit (VNum value).
Proof.
  rewrite !calculateDayScore_unfold.
  destruct dayData, habit;
    cbn [saved_record set_value set_completedHabit set_score get_value
         sleep water workout study food]; lia.
Qed.

(** X6.  The score after a save is computed from the measurements
    alone.  After an accepted save on an open day, in any state, the
    stored score of the day is the score of the measurements the record
    had, less the points of the old measurement of the saved habit, plus
    20 if the new value meets the rule; the score and the flags that
    were stored are not read.  When the stored score and the flag of the
    habit agreed with the measurements, the stored score moves by the
    points of the saved habit alone. *)
Theorem saveHabit_score_delta
  (appData : AppData) (habit : Habit) (value : Num) (dayData : DayData) :
  accepted value = true ->
  completed (current_record appData) = false ->
  days (snd (saveHabit appData habit (Some value))) !! currentDay appData
    = Some dayData ->
  score dayData =
    calculateDayScore (current_record appData)
    - calculateHabitScore habit (get_value (current_record appData) habit)
    + (if isHabitCompleted habit (VNum value) then 20 else 0) /\
  (score (current_record appData) = calculateDayScore (current_record appData) ->
   get_flag (completedHabits (current_record appData)) habit =
     isHabitCompleted habit (get_value (current_record appData) habit) ->
   score dayData =
     score (current_record appData)
     - (if get_flag (completedHabits (current_record appData)) habit
        then 20 else 0)
     + (if isHabitCompleted habit (VNum value) then 20 else 0)).
Proof.
  intros Ha Hc.
  rewrite (saveHabit_accepted _ _ _ Ha Hc). cbv zeta.
  set (saved := saved_record (current_record appData) habit value).
  assert (Hs : score saved =
               calculateDayScore (current_record appData)
               - calculateHabitScore habit (get_value (current_record appData) habit)
               + (if isHabitCompleted habit (VNum value) then 20 else 0)).
  { unfold saved. now rewrite saved_record_score, calculateDayScore_saved. }
  assert (Hl : days (snd (if areAllHabitsCompleted saved
                          then (DayDone,
                                completeCurrentDay
                                  (store_day appData (currentDay appData) saved))
                          else if isHabitCompleted habit (VNum value)
                               then (HabitDone,
                                     store_day appData (currentDay appData) saved)
                               else (HabitNotDone,
                                     store_day appData (currentDay appData) saved)))
                 !! currentDay appData = Some dayData -> score dayData = score saved).
  { destruct (areAllHabitsCompleted saved).
    - cbn [snd]. rewrite completeCurrentDay_eq, current_record_store.
      cbn [days store_day set_days currentDay]. rewrite lookup_insert_eq.
      now intros [= <-].
    - destruct (isHabitCompleted habit (VNum value)); cbn [snd];
        cbn [days store_day set_days]; rewrite lookup_insert_eq;
        now intros [= <-]. }
  intros Hlook. apply Hl in Hlook. rewrite Hlook, Hs. split; [reflexivity | ].
  intros Hscore Hflag. rewrite Hscore, Hflag. reflexivity.
Qed.

(** After the lost measurement of Sleep the stored score is 20 and the
    measurements score 0: saving Water 8 leaves the score at 20. *)
Lemma saveHabit_score_delta_witness :
  accepted (num_of_Z 8) = true /\
  completed (current_record infinity_reloaded) = false /\
  score (current_record infinity_reloaded) = 20 /\
  (exists dayData,
      days (snd (saveHabit infinity_reloaded Water (Some (num_of_Z 8))))
        !! currentDay infinity_reloaded = Some dayData /\
      score dayData = 0 - 0 + 20).
Proof.
  assert (H1 : accepted (num_of_Z 8) = true) by reflexivity.
  assert (H2 : completed (current_record infinity_reloaded) = false)
    by (vm_compute; reflexivity).
  split; [exact H1 | split; [exact H2 | split; [vm_compute; reflexivity | ]]].
  eexists. split; [vm_compute; reflexivity | ].
  match goal with
  | |- score ?d = _ =>
      assert (Hl : days (snd (saveHabit infinity_reloaded Water (Some (num_of_Z 8))))
                     !! currentDay infinity_reloaded = Some d)
        by (vm_compute; reflexivity);
      pose proof (proj1 (saveHabit_score_delta infinity_reloaded Water
                           (num_of_Z 8) d H1 H2 Hl)) as Hs
  end.
  rewrite Hs. vm_compute. reflexivity.
Defined.

(* ------------------------------------------------------------------ *)
(** ** The shape of the state during a run                              *)
(* ------------------------------------------------------------------ *)

Lemma shape_fresh : shape fresh.
Proof.
  split; cbn [fresh currentDay streak days]; try lia;
    intros; try (rewrite lookup_empty in *; discriminate); lia.
Qed.

Lemma set_completed_values (dayData : DayData) (b : bool) (habit : Habit) :
  get_value (set_completed dayData b) habit = get_value dayData habit.
Proof. now destruct habit. Qed.

Lemma current_record_values (appData : AppData) (habit : Habit) :
  shape appData -> get_value (current_record appData) habit <> VUndefined.
Proof.
  intros Hs.
  destruct (days appData !! currentDay appData) as [dayData | ] eqn:E.
  - rewrite (current_record_Some _ _ E). exact (shape_values _ Hs _ _ habit E).
  - rewrite (current_record_None _ E). now destruct habit.
Qed.

(** An open record with a flag missing is written to the current day. *)
Lemma shape_store_open (appData : AppData) (dayData : DayData) :
  shape appData ->
  completed dayData = false ->
  areAllHabitsCompleted dayData = false ->
  (forall habit, get_value dayData habit <> VUndefined) ->
  shape (store_day appData (currentDay appData) dayData).
Proof.
  intros Hs Hc Hall Hv. pose proof (shape_day _ Hs) as Hday.
  split; cbn [store_day set_days currentDay streak days].
  - exact Hday.
  - exact (shape_streak _ Hs).
  - intros day d. rewrite lookup_insert. case_decide.
    + intros _. lia.
    + apply (shape_keys _ Hs).
  - intros day Hd. destruct (shape_past _ Hs day Hd) as (d & Hl & Hcd).
    exists d. split; [ | exact Hcd]. rewrite lookup_insert_ne; [exact Hl | lia].
  - rewrite lookup_insert_eq. intros d [= <-]. congruence.
  - intros day d. rewrite lookup_insert. case_decide.
    + intros [= <-]. congruence.
    + apply (shape_flags _ Hs).
  - intros day d habit. rewrite lookup_insert. case_decide.
    + intros [= <-]. apply Hv.
    + intros Hl. exact (shape_values _ Hs _ _ habit Hl).
Qed.

(** The current day, open so far, is completed with the given record. *)
Lemma shape_store_complete (appData : AppData) (dayData : DayData) :
  shape appData ->
  (forall habit, get_value dayData habit <> VUndefined) ->
  shape (completeCurrentDay (store_day appData (currentDay appData) dayData)).
Proof.
  intros Hs Hv. pose proof (shape_day _ Hs) as Hday.
  rewrite completeCurrentDay_eq, current_record_store.
  cbn [store_day set_days currentDay streak days whyStarted].
  rewrite insert_insert_eq.
  remember (if currentDay appData <? 100
            then currentDay appData + 1 else currentDay appData) as next eqn:En.
  assert (Hnext : (next = currentDay appData + 1 /\ currentDay appData < 100) \/
                  (next = currentDay appData /\ currentDay appData = 100)).
  { subst next. destruct (Z.ltb_spec (currentDay appData) 100); lia. }
  clear En.
  split; cbn [currentDay streak days].
  - lia.
  - pose proof (shape_streak _ Hs). lia.
  - intros day d. rewrite lookup_insert. case_decide.
    + intros _. lia.
    + intros Hl. pose proof (shape_keys _ Hs _ _ Hl). lia.
  - intros day Hd.
    destruct (Z.eq_dec day (currentDay appData)) as [-> | Hne].
    + exists (set_completed dayData true).
      split; [apply lookup_insert_eq | reflexivity].
    + destruct (shape_past _ Hs day) as (d & Hl & Hcd); [lia | ].
      exists d. split; [ | exact Hcd]. now rewrite lookup_insert_ne.
  - intros d Hl _. destruct Hnext as [[-> Hlt] | [-> Heq]]; [ | exact Heq].
    rewrite lookup_insert_ne in Hl by lia.
    pose proof (shape_keys _ Hs _ _ Hl). lia.
  - intros day d. rewrite lookup_insert. case_decide.
    + now intros [= <-].
    + apply (shape_flags _ Hs).
  - intros day d habit. rewrite lookup_insert. case_decide.
    + intros [= <-]. rewrite set_completed_values. apply Hv.
    + intros Hl. exact (shape_values _ Hs _ _ habit Hl).
Qed.

Lemma saved_record_values (dayData : DayData) (habit h : Habit) (value : Num) :
  get_value dayData h <> VUndefined ->
  get_value (saved_record dayData habit value) h <> VUndefined.
Proof. rewrite saved_record_value. now case_decide. Qed.

Lemma shape_saveHabit (appData : AppData) (habit : Habit) (input : option Num) :
  shape appData -> shape (snd (saveHabit appData habit input)).
Proof.
  intros Hs.
  save_cases appData habit input as value Hopen; [exact Hs | ].
  assert (Hv : forall h,
             get_value (saved_record (current_record appData) habit value) h
             <> VUndefined).
  { intros h. apply saved_record_values. now apply current_record_values. }
  destruct (areAllHabitsCompleted _) eqn:Hall.
  - now apply shape_store_complete.
  - apply shape_store_open; try assumption.
    now rewrite saved_record_completed.
Qed.

(** [completeCurrentDay] on a day that is completed already: only the
    streak moves. *)
Lemma completeCurrentDay_again (appData : AppData) (dayData : DayData) :
  days appData !! currentDay appData = Some dayData ->
  completed dayData = true ->
  currentDay appData = 100 ->
  completeCurrentDay appData = set_streak appData (streak appData + 1).
Proof.
  intros Hl Hc Hd. rewrite completeCurrentDay_eq, (current_record_Some _ _ Hl).
  rewrite (set_completed_id _ Hc), (insert_id _ _ _ Hl).
  unfold set_streak. rewrite Hd at 1 2. rewrite Hd. reflexivity.
Qed.

Lemma shape_set_streak (appData : AppData) (s : Z) :
  shape appData -> 0 <= s -> shape (set_streak appData s).
Proof. intros [] Hs. now split. Qed.

Lemma shape_getCurrentDayData (appData : AppData) :
  shape appData -> shape (snd (getCurrentDayData appData)).
Proof.
  intros Hs.
  destruct (days appData !! currentDay appData) as [dayData | ] eqn:E.
  - now rewrite (getCurrentDayData_Some _ _ E).
  - rewrite (getCurrentDayData_None _ E). cbn [snd].
    apply shape_store_open; try easy. now intros [].
Qed.

Lemma updateStreak_nonneg (appData : AppData) : 0 <= streak (updateStreak appData).
Proof.
  cbn [updateStreak streak set_streak].
  pose proof (updateStreak_loop_run (days appData) (Z.to_nat (currentDay appData)))
    as (Hk & _). lia.
Qed.

Lemma shape_restartChallenge (appData : AppData) (answer1 answer2 : bool) :
  shape appData -> shape (restartChallenge appData answer1 answer2).
Proof.
  intros Hs. unfold restartChallenge.
  destruct (_ && _); [destruct answer1 | ]; try exact Hs;
    (split; cbn [currentDay streak days]; try lia;
     intros; try (rewrite lookup_empty in *; discriminate); lia).
Qed.

Lemma loadCurrentDayUI_state (appData : AppData) :
  snd (loadCurrentDayUI appData) = snd (getCurrentDayData appData).
Proof.
  unfold loadCurrentDayUI.
  pose proof (getCurrentDayData_state appData) as Hs. unfold current_record in Hs.
  destruct (getCurrentDayData appData) as [dayData appData'].
  cbn [fst snd] in *. subst appData'.
  unfold updateScoreDisplay. now rewrite getCurrentDayData_store.
Qed.

(** [init] on a state: the streak that the second guard may write is
    overwritten by [updateStreak]. *)
Lemma init_eq (appData : AppData) :
  init appData =
  snd (getCurrentDayData
         (updateStreak (set_currentDay appData (Z.max 1 (currentDay appData))))).
Proof.
  unfold init. rewrite loadCurrentDayUI_state. f_equal.
  destruct appData as [cur st ds why]. cbn [currentDay].
  destruct (Z.ltb_spec cur 1) as [Hlt | Hge].
  - rewrite Z.max_l by lia. cbn [streak set_currentDay].
    now destruct (st <? 0).
  - rewrite Z.max_r by lia. cbn [streak].
    now destruct (st <? 0).
Qed.

Lemma lookup_parse_saved (appData : AppData) (day : Z) :
  days (parse_saved appData) !! day = stored_day <$> (days appData !! day).
Proof. cbn [parse_saved days]. apply lookup_fmap. Qed.

Lemma stored_value_defined (value : Value) :
  value <> VUndefined -> stored_value value <> VUndefined.
Proof. destruct value as [ | | [ | | | q]]; cbn; congruence. Qed.

Lemma get_value_stored_day (dayData : DayData) (habit : Habit) :
  get_value (stored_day dayData) habit = stored_value (get_value dayData habit).
Proof. now destruct habit. Qed.

Lemma shape_parse_saved (appData : AppData) :
  shape appData -> shape (parse_saved appData).
Proof.
  intros Hs. split.
  - exact (shape_day _ Hs).
  - exact (shape_streak _ Hs).
  - intros day d. rewrite lookup_parse_saved.
    destruct (days appData !! day) as [d0 | ] eqn:E; [ | discriminate].
    intros _. exact (shape_keys _ Hs _ _ E).
  - intros day Hd. destruct (shape_past _ Hs day Hd) as (d & Hl & Hc).
    exists (stored_day d). rewrite lookup_parse_saved, Hl. now split.
  - intros d. rewrite lookup_parse_saved.
    destruct (days appData !! currentDay (parse_saved appData)) as [d0 | ] eqn:E;
      [ | discriminate].
    intros [= <-] Hc. exact (shape_current _ Hs _ E Hc).
  - intros day d. rewrite lookup_parse_saved.
    destruct (days appData !! day) as [d0 | ] eqn:E; [ | discriminate].
    intros [= <-]. exact (shape_flags _ Hs _ _ E).
  - intros day d habit. rewrite lookup_parse_saved.
    destruct (days appData !! day) as [d0 | ] eqn:E; [ | discriminate].
    intros [= <-]. rewrite get_value_stored_day.
    apply stored_value_defined. exact (shape_values _ Hs _ _ habit E).
Qed.

Lemma set_currentDay_same (appData : AppData) :
  set_currentDay appData (currentDay appData) = appData.
Proof. now destruct appData. Qed.

(** On a state of the right shape [init] is [updateStreak] followed by
    the fetch of the current record. *)
Lemma init_shape (appData : AppData) :
  shape appData ->
  init appData = snd (getCurrentDayData (updateStreak appData)).
Proof.
  intros Hs. pose proof (shape_day _ Hs). rewrite init_eq.
  now rewrite Z.max_r, set_currentDay_same by lia.
Qed.

Lemma shape_page_load (appData : AppData) :
  shape appData -> shape (page_load appData).
Proof.
  intros Hs. apply shape_parse_saved in Hs.
  unfold page_load. rewrite (init_shape _ Hs).
  apply shape_getCurrentDayData, shape_set_streak;
    [exact Hs | apply updateStreak_nonneg].
Qed.

Lemma reachable_shape (appData : AppData) : reachable appData -> shape appData.
Proof.
  induction 1 as [ | a habit input _ IH | a _ IH | a dayData _ IH Hrec Hall
                 | a _ IH | a text _ IH | a answer1 answer2 _ IH | a _ IH ].
  - exact shape_fresh.
  - now apply shape_saveHabit.
  - now apply shape_getCurrentDayData.
  - pose proof (shape_flags _ IH _ _ Hrec Hall) as Hc.
    pose proof (shape_current _ IH _ Hrec Hc) as Hd.
    rewrite (completeCurrentDay_again _ _ Hrec Hc Hd).
    apply shape_set_streak; [exact IH | ].
    pose proof (shape_streak _ IH). lia.
  - apply shape_set_streak; [exact IH | apply updateStreak_nonneg].
  - destruct IH. now split.
  - now apply shape_restartChallenge.
  - now apply shape_page_load.
Qed.

Lemma handled_reachable (appData : AppData) : handled appData -> reachable appData.
Proof.
  induction 1 as [ | a habit input _ IH | a _ IH | a _ IH | a text _ IH
                 | a answer1 answer2 _ IH | a _ IH ].
  - apply reach_fresh.
  - now apply reach_saveHabit.
  - rewrite loadCurrentDayUI_state. now apply reach_getCurrentDayData.
  - now apply reach_updateStreak.
  - now apply reach_saveWhy.
  - now apply reach_restartChallenge.
  - now apply reach_page_load.
Qed.

Lemma current_record_lookup (appData : AppData) :
  current_record appData =
  match days appData !! currentDay appData with
  | Some dayData => dayData
  | None => default_day
  end.
Proof.
  unfold current_record, getCurrentDayData.
  now destruct (days appData !! currentDay appData).
Qed.

Lemma restartChallenge_unfold (appData : AppData) (answer1 answer2 : bool) :
  restartChallenge appData answer1 answer2 =
  if challenge_completed appData
  then (if answer1
        then {| currentDay := 1; streak := 0; days := ∅;
                whyStarted := if answer2 then whyStarted appData
                              else EmptyString |}
        else appData)
  else {| currentDay := 1; streak := 0; days := ∅;
          whyStarted := whyStarted appData |}.
Proof.
  unfold restartChallenge, challenge_completed.
  destruct (_ && _); [ | reflexivity]. now destruct answer1.
Qed.

(* ------------------------------------------------------------------ *)
(** ** Properties of the records kept by every operation                *)
(* ------------------------------------------------------------------ *)

Section RecordInvariant.

Variable P : DayData -> Prop.
Hypothesis P_default : P default_day.
Hypothesis P_completed :
  forall dayData,
    P dayData -> areAllHabitsCompleted dayData = true ->
    P (set_completed dayData true).

Lemma kept_current_record (appData : AppData) :
  (forall day d, days appData !! day = Some d -> P d) ->
  P (current_record appData).
Proof.
  intros Hall. rewrite current_record_lookup.
  destruct (days appData !! currentDay appData) as [d | ] eqn:E;
    [exact (Hall _ _ E) | exact P_default].
Qed.

Lemma kept_store_day (appData : AppData) (day : Z) (dayData : DayData) :
  (forall day d, days appData !! day = Some d -> P d) ->
  P dayData ->
  forall day' d, days (store_day appData day dayData) !! day' = Some d -> P d.
Proof.
  intros Hall Hd day' d. cbn [days store_day set_days].
  rewrite lookup_insert. case_decide; [now intros [= <-] | apply Hall].
Qed.

Lemma kept_getCurrentDayData (appData : AppData) :
  (forall day d, days appData !! day = Some d -> P d) ->
  forall day d, days (snd (getCurrentDayData appData)) !! day = Some d -> P d.
Proof.
  intros Hall. rewrite getCurrentDayData_state.
  apply kept_store_day; [exact Hall | now apply kept_current_record].
Qed.

Lemma kept_completeCurrentDay (appData : AppData) :
  (forall day d, days appData !! day = Some d -> P d) ->
  areAllHabitsCompleted (current_record appData) = true ->
  forall day d, days (completeCurrentDay appData) !! day = Some d -> P d.
Proof.
  intros Hall Hflags day d. rewrite completeCurrentDay_eq. cbn [days].
  rewrite lookup_insert. case_decide; [ | apply Hall].
  intros [= <-]. apply P_completed; [ | exact Hflags].
  now apply kept_current_record.
Qed.

Lemma kept_saveHabit (appData : AppData) (habit : Habit) (input : option Num) :
  (forall value dayData,
      input = Some value -> accepted value = true ->
      P dayData -> completed dayData = false ->
      P (saved_record dayData habit value)) ->
  (forall day d, days appData !! day = Some d -> P d) ->
  forall day d, days (snd (saveHabit appData habit input)) !! day = Some d -> P d.
Proof.
  intros Hsaved Hall.
  destruct (saveHabit_outcomes appData habit input)
    as [-> | (value & Hin & Ha & Hopen & Hsnd)]; [exact Hall | ].
  cbv zeta in Hsnd. rewrite Hsnd. clear Hsnd.
  set (dayData := saved_record (current_record appData) habit value).
  assert (Hd : P dayData).
  { apply Hsaved; try assumption. now apply kept_current_record. }
  destruct (areAllHabitsCompleted dayData) eqn:Hflags.
  - apply kept_completeCurrentDay.
    + now apply kept_store_day.
    + now rewrite current_record_store.
  - now apply kept_store_day.
Qed.

Lemma kept_restartChallenge (appData : AppData) (answer1 answer2 : bool) :
  (forall day d, days appData !! day = Some d -> P d) ->
  forall day d,
    days (restartChallenge appData answer1 answer2) !! day = Some d -> P d.
Proof.
  intros Hall day d. rewrite restartChallenge_unfold.
  destruct (challenge_completed appData); [destruct answer1 | ];
    cbn [days]; first [apply Hall | now rewrite lookup_empty].
Qed.

Hypothesis P_stored : forall dayData, P dayData -> P (stored_day dayData).

Lemma kept_page_load (appData : AppData) :
  (forall day d, days appData !! day = Some d -> P d) ->
  forall day d, days (page_load appData) !! day = Some d -> P d.
Proof.
  intros Hall. unfold page_load. rewrite init_eq.
  apply kept_getCurrentDayData. intros day d.
  cbn [days updateStreak set_streak set_currentDay parse_saved].
  rewrite lookup_fmap.
  destruct (days appData !! day) as [d0 | ] eqn:E; [ | discriminate].
  intros [= <-]. apply P_stored. exact (Hall _ _ E).
Qed.

End RecordInvariant.

(* ------------------------------------------------------------------ *)
(** ** The records of a run, loads of the page included                 *)
(* ------------------------------------------------------------------ *)

Lemma record_weak_default : record_weak default_day.
Proof.
  split.
  - intros []; discriminate.
  - intros []; discriminate.
  - unfold flag_points, default_day.
    cbn [score completedHabits ch_sleep ch_water ch_workout ch_study ch_food].
    lia.
  - now exists 0.
  - discriminate.
Qed.

Lemma flag_points_le (ch1 ch2 : CompletedHabits) :
  (forall habit, get_flag ch1 habit = true -> get_flag ch2 habit = true) ->
  flag_points ch1 <= flag_points ch2.
Proof.
  intros H. unfold flag_points.
  assert (Hone : forall a b : bool,
             (a = true -> b = true) ->
             (if a then 20 else 0) <= (if b then 20 else 0)).
  { intros [] [] Hab; lia. }
  pose proof (Hone _ _ (H Sleep)). pose proof (Hone _ _ (H Water)).
  pose proof (Hone _ _ (H Workout)). pose proof (Hone _ _ (H Study)).
  pose proof (Hone _ _ (H Food)). cbn [get_flag] in *. lia.
Qed.

Lemma record_weak_saved (dayData : DayData) (habit : Habit) (value : Num) :
  record_weak dayData ->
  completed dayData = false ->
  record_weak (saved_record dayData habit value).
Proof.
  intros [Hup Hdown _ _ _] Hopen.
  assert (Hup' : forall h,
             isHabitCompleted h (get_value (saved_record dayData habit value) h)
             = true ->
             get_flag (completedHabits (saved_record dayData habit value)) h = true).
  { intros h. rewrite saved_record_flag, saved_record_value.
    case_decide as Hd; [now subst h | apply Hup]. }
  split.
  - exact Hup'.
  - intros h. rewrite saved_record_flag, saved_record_value.
    case_decide as Hd; [subst h; now left | apply Hdown].
  - rewrite saved_record_score, calculateDayScore_derived. split.
    + apply flag_points_range.
    + apply flag_points_le. intros h Hd. apply Hup'. destruct h; exact Hd.
  - rewrite saved_record_score, calculateDayScore_derived.
    apply flag_points_range.
  - rewrite saved_record_completed. congruence.
Qed.

Lemma record_weak_completed (dayData : DayData) :
  record_weak dayData ->
  areAllHabitsCompleted dayData = true ->
  record_weak (set_completed dayData true).
Proof.
  intros [Hup Hdown Hscore Hmul _] Hflags. split; try assumption.
  intros _. now apply areAllHabitsCompleted_all_flags.
Qed.

Lemma stored_value_meets (habit : Habit) (value : Value) :
  isHabitCompleted habit (stored_value value) = true ->
  stored_value value = value.
Proof. destruct value as [ | | [ | | | q]]; cbn; congruence. Qed.

Lemma record_weak_stored (dayData : DayData) :
  record_weak dayData -> record_weak (stored_day dayData).
Proof.
  intros [Hup Hdown Hscore Hmul Hcompleted]. split; try assumption.
  - intros h. rewrite get_value_stored_day. intros Hm.
    rewrite (stored_value_meets _ _ Hm) in Hm. exact (Hup _ Hm).
  - intros h Hf. rewrite get_value_stored_day.
    destruct (Hdown _ Hf) as [Hm | Hnull].
    + destruct (get_value dayData h) as [ | | [ | | | q]]; cbn; auto.
    + rewrite Hnull. now right.
Qed.

Lemma reachable_weak (appData : AppData) (day : Z) (dayData : DayData) :
  reachable appData ->
  days appData !! day = Some dayData -> record_weak dayData.
Proof.
  intros H. revert day dayData.
  induction H as [ | a habit input _ IH | a _ IH | a dayData0 _ IH Hrec Hall
                 | a _ IH | a text _ IH | a answer1 answer2 _ IH | a _ IH ].
  - intros day dayData Hl. discriminate Hl.
  - apply (kept_saveHabit record_weak record_weak_default record_weak_completed);
      [ | exact IH].
    intros value d _ _. apply record_weak_saved.
  - now apply (kept_getCurrentDayData record_weak record_weak_default).
  - apply (kept_completeCurrentDay record_weak record_weak_default
             record_weak_completed); [exact IH | ].
    now rewrite (current_record_Some _ _ Hrec).
  - exact IH.
  - exact IH.
  - now apply (kept_restartChallenge record_weak).
  - now apply (kept_page_load record_weak record_weak_default record_weak_stored).
Qed.

(* ------------------------------------------------------------------ *)
(** ** Runs with finite inputs                                          *)
(* ------------------------------------------------------------------ *)

Lemma stored_day_fixed (dayData : DayData) :
  (forall habit, stored_value (get_value dayData habit) = get_value dayData habit) ->
  stored_day dayData = dayData.
Proof.
  intros H. destruct dayData. unfold stored_day. cbn [sleep water workout study food].
  pose proof (H Sleep) as H1. pose proof (H Water) as H2.
  pose proof (H Workout) as H3. pose proof (H Study) as H4.
  pose proof (H Food) as H5. cbn in H1, H2, H3, H4, H5.
  now rewrite H1, H2, H3, H4, H5.
Qed.

Lemma finite_record_saved (dayData : DayData) (habit : Habit) (value : Num) :
  Some value <> Some PInf ->
  accepted value = true ->
  record_ok dayData /\ stored_day dayData = dayData ->
  completed dayData = false ->
  record_ok (saved_record dayData habit value) /\
  stored_day (saved_record dayData habit value) = saved_record dayData habit value.
Proof.
  intros Hfin Ha [Hok Hst] Hopen. split; [now apply record_ok_saved | ].
  apply stored_day_fixed. intros h. rewrite saved_record_value.
  case_decide.
  - apply accepted_cases in Ha as [-> | (q & -> & _)]; [congruence | reflexivity].
  - rewrite <- Hst at 2. now rewrite get_value_stored_day.
Qed.

Lemma finite_run_records (appData : AppData) (day : Z) (dayData : DayData) :
  finite_run appData ->
  days appData !! day = Some dayData ->
  record_ok dayData /\ stored_day dayData = dayData.
Proof.
  intros H. revert day dayData.
  assert (Hdefault : record_ok default_day /\ stored_day default_day = default_day)
    by (split; [exact record_ok_default | reflexivity]).
  assert (Hcompleted : forall d,
             record_ok d /\ stored_day d = d ->
             areAllHabitsCompleted d = true ->
             record_ok (set_completed d true) /\
             stored_day (set_completed d true) = set_completed d true).
  { intros d [Hok Hst] Hflags. split; [now apply record_ok_completed | ].
    rewrite <- Hst at 2. reflexivity. }
  assert (Hstored : forall d,
             record_ok d /\ stored_day d = d ->
             record_ok (stored_day d) /\ stored_day (stored_day d) = stored_day d).
  { intros d [Hok Hst]. now rewrite !Hst. }
  induction H as [ | a habit input _ IH Hfin | a _ IH | a dayData0 _ IH Hrec Hall
                 | a _ IH | a text _ IH | a answer1 answer2 _ IH | a _ IH ].
  - intros day dayData Hl. discriminate Hl.
  - apply (kept_saveHabit _ Hdefault Hcompleted); [ | exact IH].
    intros value d -> Ha. now apply finite_record_saved.
  - now apply (kept_getCurrentDayData _ Hdefault).
  - apply (kept_completeCurrentDay _ Hdefault Hcompleted); [exact IH | ].
    now rewrite (current_record_Some _ _ Hrec).
  - exact IH.
  - exact IH.
  - now apply (kept_restartChallenge (fun d => record_ok d /\ stored_day d = d)).
  - now apply (kept_page_load _ Hdefault Hstored).
Qed.

Lemma reachable_save_all (inputs : list (Habit * Num)) (appData : AppData) :
  reachable appData -> reachable (save_all inputs appData).
Proof.
  revert appData. induction inputs as [ | [habit value] inputs IH];
    intros appData H; [exact H | ].
  apply IH. now apply reach_saveHabit.
Qed.

Lemma handled_save_all (inputs : list (Habit * Num)) (appData : AppData) :
  handled appData -> handled (save_all inputs appData).
Proof.
  revert appData. induction inputs as [ | [habit value] inputs IH];
    intros appData H; [exact H | ].
  apply IH. now apply handled_saveHabit.
Qed.

(** X7.  Days are done in order.  In every state of a run the current
    day is a day from 1 to 100 and the streak is not negative; records
    exist only for days from 1 to the current day; every day before the
    current day has a completed record; and the current day's own record
    is completed only on day 100, the end of the challenge. *)
Theorem reachable_days_in_order (appData : AppData) :
  reachable appData ->
  1 <= currentDay appData <= 100 /\
  0 <= streak appData /\
  (forall day dayData,
      days appData !! day = Some dayData -> 1 <= day <= currentDay appData) /\
  (forall day,
      1 <= day < currentDay appData -> day_completed (days appData) day) /\
  (day_completed (days appData) (currentDay appData) ->
   currentDay appData = 100).
Proof.
  intros H. apply reachable_shape in H. destruct H as [H1 H2 H3 H4 H5 _ _].
  repeat (split; [assumption | ]).
  intros (dayData & Hl & Hc). exact (H5 _ Hl Hc).
Qed.

Lemma reachable_days_in_order_witness :
  reachable three_days_done /\
  1 <= currentDay three_days_done <= 100 /\
  day_completed (days three_days_done) 2.
Proof.
  assert (H : reachable three_days_done).
  { rewrite <- three_days_done_run. apply reachable_save_all, reach_fresh. }
  split; [exact H | ].
  destruct (reachable_days_in_order three_days_done H) as (Hd & _ & _ & Hp & _).
  split; [exact Hd | ].
  apply Hp. vm_compute. split; [discriminate | reflexivity].
Defined.

Lemma reachable_infinity_day_done : reachable infinity_day_done.
Proof.
  apply reachable_save_all, reach_page_load, reach_saveHabit, reach_fresh.
Qed.

(** X8.  In every state of a run, loads of the page included, a record
    is completed exactly when its five flags are set.  Its score is a
    multiple of 20 that counts at most 20 for each set flag, so that a
    score of 100 is found on completed records only; a completed record
    may show less than 100, when a measurement was lost by a load of the
    page. *)
Theorem reachable_completed_iff_all_flags
  (appData : AppData) (day : Z) (dayData : DayData) :
  reachable appData ->
  days appData !! day = Some dayData ->
  (completed dayData = true <-> areAllHabitsCompleted dayData = true) /\
  (score dayData = 100 -> completed dayData = true) /\
  0 <= score dayData <= flag_points (completedHabits dayData) /\
  (20 | score dayData).
Proof.
  intros Hreach Hl.
  destruct (reachable_weak _ _ _ Hreach Hl) as [_ _ Hscore Hmul Hcompleted].
  pose proof (shape_flags _ (reachable_shape _ Hreach) _ _ Hl) as Hlock.
  split; [ | split; [ | now split]].
  - split; [ | exact Hlock].
    intros Hc. now apply areAllHabitsCompleted_all_flags, Hcompleted.
  - intros H100. apply Hlock, areAllHabitsCompleted_all_flags.
    unfold all_flags. apply flag_points_100.
    pose proof (flag_points_range (completedHabits dayData)). lia.
Qed.

(** The day completed after the lost measurement: locked, with a score
    of 80. *)
Lemma reachable_completed_iff_all_flags_witness :
  reachable infinity_day_done /\
  exists dayData,
    days infinity_day_done !! 1 = Some dayData /\
    completed dayData = true /\
    score dayData = 80 /\
    areAllHabitsCompleted dayData = true.
Proof.
  pose proof reachable_infinity_day_done as H.
  split; [exact H | ].
  eexists. split; [vm_compute; reflexivity | ].
  split; [reflexivity | split; [reflexivity | ]].
  match goal with
  | |- areAllHabitsCompleted ?d = true =>
      assert (Hl : days infinity_day_done !! 1 = Some d)
        by (vm_compute; reflexivity);
      exact (proj1 (proj1 (reachable_completed_iff_all_flags
                             infinity_day_done 1 d H Hl)) eq_refl)
  end.
Defined.

(** X9.  In every state of a run, loads of the page included, the flags
    follow the measurements in one direction: a measurement that meets
    its rule has its flag set.  A set flag has a measurement that meets
    the rule, or [null] where a load of the page has lost a number that
    was not finite.  A measurement is never [undefined]. *)
Theorem reachable_flags_follow
  (appData : AppData) (day : Z) (dayData : DayData) (habit : Habit) :
  reachable appData ->
  days appData !! day = Some dayData ->
  (isHabitCompleted habit (get_value dayData habit) = true ->
   get_flag (completedHabits dayData) habit = true) /\
  (get_flag (completedHabits dayData) habit = true ->
   isHabitCompleted habit (get_value dayData habit) = true \/
   get_value dayData habit = VNull) /\
  get_value dayData habit <> VUndefined.
Proof.
  intros Hreach Hl.
  destruct (reachable_weak _ _ _ Hreach Hl) as [Hup Hdown _ _ _].
  split; [apply Hup | split; [apply Hdown | ]].
  apply (shape_values _ (reachable_shape _ Hreach) _ _ habit Hl).
Qed.

Lemma reachable_flags_follow_witness :
  reachable infinity_day_done /\
  exists dayData,
    days infinity_day_done !! 1 = Some dayData /\
    get_flag (completedHabits dayData) Sleep = true /\
    (isHabitCompleted Sleep (get_value dayData Sleep) = true \/
     get_value dayData Sleep = VNull).
Proof.
  pose proof reachable_infinity_day_done as H.
  split; [exact H | ].
  eexists. split; [vm_compute; reflexivity | ].
  split; [reflexivity | ].
  match goal with
  | |- _ \/ get_value ?d Sleep = VNull =>
      assert (Hl : days infinity_day_done !! 1 = Some d)
        by (vm_compute; reflexivity);
      exact (proj1 (proj2 (reachable_flags_follow
                             infinity_day_done 1 d Sleep H Hl)) eq_refl)
  end.
Defined.

Lemma finite_run_reachable (appData : AppData) :
  finite_run appData -> reachable appData.
Proof.
  induction 1 as [ | a habit input _ IH _ | a _ IH | a d _ IH Hrec Hall
                 | a _ IH | a text _ IH | a answer1 answer2 _ IH | a _ IH ].
  - apply reach_fresh.
  - now apply reach_saveHabit.
  - now apply reach_getCurrentDayData.
  - now apply (reach_completeCurrentDay _ d).
  - now apply reach_updateStreak.
  - now apply reach_saveWhy.
  - now apply reach_restartChallenge.
  - now apply reach_page_load.
Qed.

Lemma finite_run_save_all (inputs : list (Habit * Num)) (appData : AppData) :
  Forall (fun input => snd input <> PInf) inputs ->
  finite_run appData -> finite_run (save_all inputs appData).
Proof.
  intros Hall. revert appData.
  induction Hall as [ | [habit value] inputs Hv _ IH]; intros appData H;
    [exact H | ].
  apply IH. apply finite_saveHabit; [exact H | ].
  unfold finite_input. cbn in Hv. congruence.
Qed.

(** X20.  Runs with finite inputs.  In every state of a run in which no
    save was given [Infinity], loads of the page included, every record
    has a score of 20 points per set flag, each flag is the rule applied
    to the stored measurement, the record is completed exactly when its
    score is 100, and a load of the page reads every record back as it
    was stored. *)
Theorem finite_run_record_invariants
  (appData : AppData) (day : Z) (dayData : DayData) :
  finite_run appData ->
  days appData !! day = Some dayData ->
  score dayData = flag_points (completedHabits dayData) /\
  (forall habit,
      get_flag (completedHabits dayData) habit =
      isHabitCompleted habit (get_value dayData habit)) /\
  (completed dayData = true <-> score dayData = 100) /\
  stored_day dayData = dayData.
Proof.
  intros Hrun Hl.
  destruct (finite_run_records _ _ _ Hrun Hl) as [[Hflags Hscore Hcompleted] Hst].
  pose proof (shape_flags _ (reachable_shape _ (finite_run_reachable _ Hrun))
                _ _ Hl) as Hlock.
  assert (Hpoints : score dayData = flag_points (completedHabits dayData)).
  { rewrite Hscore. now apply score_counts_flags. }
  split; [exact Hpoints | split; [exact Hflags | split; [ | exact Hst]]].
  rewrite Hpoints, flag_points_100. split.
  - exact Hcompleted.
  - intros Hall. now apply Hlock, areAllHabitsCompleted_all_flags.
Qed.

Lemma finite_run_record_invariants_witness :
  finite_run three_days_done /\
  days three_days_done !! 3 = Some good_record /\
  score good_record = flag_points (completedHabits good_record).
Proof.
  assert (H : finite_run three_days_done).
  { rewrite <- three_days_done_run.
    apply finite_run_save_all; [ | apply finite_fresh].
    unfold good_day. cbn [app].
    repeat (constructor; [discriminate | ]). constructor. }
  assert (Hl : days three_days_done !! 3 = Some good_record) by reflexivity.
  split; [exact H | split; [exact Hl | ]].
  exact (proj1 (finite_run_record_invariants three_days_done 3 good_record H Hl)).
Defined.

(** X10.  Every new day starts blank.  When a save completes a day
    before day 100 in a state of a run, the next day becomes the current
    day and has no record yet, so that the record fetched for it is the
    default one. *)
Theorem new_day_starts_blank
  (appData : AppData) (habit : Habit) (input : option Num) :
  reachable appData ->
  fst (saveHabit appData habit input) = DayDone ->
  currentDay appData < 100 ->
  let appData' := snd (saveHabit appData habit input) in
  currentDay appData' = currentDay appData + 1 /\
  days appData' !! currentDay appData' = None /\
  fst (getCurrentDayData appData') = default_day.
Proof.
  intros Hreach Hdone Hlt appData'. subst appData'.
  pose proof (reachable_shape _ Hreach) as Hs.
  destruct input as [value | ]; [ | discriminate Hdone].
  destruct (accepted value) eqn:Ha;
    [ | rewrite (saveHabit_rejected _ _ _ Ha) in Hdone; discriminate Hdone].
  destruct (completed (current_record appData)) eqn:Hc;
    [rewrite (saveHabit_locked _ _ _ Ha Hc) in Hdone; discriminate Hdone | ].
  rewrite (saveHabit_accepted _ _ _ Ha Hc) in *. cbv zeta in *.
  destruct (areAllHabitsCompleted _);
    [ | destruct (isHabitCompleted habit (VNum value)); discriminate Hdone].
  cbn [snd]. rewrite completeCurrentDay_eq.
  cbn [currentDay days store_day set_days].
  destruct (Z.ltb_spec (currentDay appData) 100) as [_ | Hge]; [ | lia].
  assert (Hnone : <[currentDay appData:=set_completed
                      (current_record
                         (store_day appData (currentDay appData)
                            (saved_record (current_record appData) habit value)))
                      true]>
                    (<[currentDay appData:=saved_record (current_record appData)
                                             habit value]> (days appData))
                  !! (currentDay appData + 1) = None).
  { rewrite !lookup_insert_ne by lia.
    destruct (days appData !! (currentDay appData + 1)) as [d | ] eqn:E;
      [ | reflexivity].
    pose proof (shape_keys _ Hs _ _ E). lia. }
  split; [reflexivity | split; [exact Hnone | ]].
  unfold getCurrentDayData. cbn [currentDay days]. now rewrite Hnone.
Qed.

Lemma new_day_starts_blank_witness :
  reachable four_saved /\
  fst (saveHabit four_saved Food (Some (num_of_Z 2200))) = DayDone /\
  currentDay four_saved < 100 /\
  currentDay (snd (saveHabit four_saved Food (Some (num_of_Z 2200)))) = 1 + 1.
Proof.
  assert (H1 : reachable four_saved) by apply reachable_save_all, reach_fresh.
  assert (H2 : fst (saveHabit four_saved Food (Some (num_of_Z 2200))) = DayDone)
    by (vm_compute; reflexivity).
  assert (H3 : currentDay four_saved < 100) by (vm_compute; reflexivity).
  split; [exact H1 | split; [exact H2 | split; [exact H3 | ]]].
  exact (proj1 (new_day_starts_blank four_saved Food
                  (Some (num_of_Z 2200)) H1 H2 H3)).
Defined.

(* ------------------------------------------------------------------ *)
(** ** The streak during a run                                          *)
(* ------------------------------------------------------------------ *)

(** On a day whose record is missing or open the walk of [updateStreak]
    stops at once. *)
Lemma updateStreak_open_day (appData : AppData) :
  completed (current_record appData) = false ->
  streak (updateStreak appData) = 0.
Proof.
  intros Hopen. cbn [updateStreak streak set_streak].
  pose proof (updateStreak_loop_run (days appData) (Z.to_nat (currentDay appData)))
    as (Hk & Hrun & _).
  set (k := updateStreak_loop _ _ _) in *.
  destruct (Z.eq_dec k 0) as [Hz | Hnz]; [exact Hz | exfalso].
  destruct (Hrun (currentDay appData)) as (dayData & Hl & Hc); [lia | ].
  rewrite (current_record_Some _ _ Hl) in Hopen. congruence.
Qed.

Lemma updateStreak_shape (appData : AppData) :
  shape appData ->
  streak (updateStreak appData) =
  if completed (current_record appData) then currentDay appData else 0.
Proof.
  intros Hs. destruct (completed (current_record appData)) eqn:Hc;
    [ | now apply updateStreak_open_day].
  pose proof (shape_day _ Hs) as Hday.
  cbn [updateStreak streak set_streak].
  pose proof (updateStreak_loop_run (days appData) (Z.to_nat (currentDay appData)))
    as (Hk & _ & Hstop).
  set (k := updateStreak_loop _ _ _) in *.
  rewrite Z2Nat.id in Hk, Hstop by lia.
  destruct (Z.eq_dec k (currentDay appData)) as [Heq | Hne]; [exact Heq | exfalso].
  apply Hstop; [lia | ].
  destruct (Z.eq_dec k 0) as [-> | Hnz].
  - rewrite Z.sub_0_r.
    destruct (days appData !! currentDay appData) as [dayData | ] eqn:E.
    + rewrite (current_record_Some _ _ E) in Hc. now exists dayData.
    + rewrite (current_record_None _ E) in Hc. discriminate Hc.
  - apply (shape_past _ Hs). lia.
Qed.

(** X11.  What a reload does to the streak.  In every state of a run,
    [updateStreak] sets the streak to 0 as long as the current day is
    not completed, whatever was completed before, and to the current day
    (which is then 100) once it is. *)
Theorem updateStreak_during_run (appData : AppData) :
  reachable appData ->
  streak (updateStreak appData) =
  if completed (current_record appData) then currentDay appData else 0.
Proof. intros H. apply updateStreak_shape. now apply reachable_shape. Qed.

Lemma updateStreak_during_run_witness :
  reachable three_days_done /\
  streak three_days_done = 3 /\
  streak (updateStreak three_days_done) = 0.
Proof.
  assert (H : reachable three_days_done).
  { rewrite <- three_days_done_run. apply reachable_save_all, reach_fresh. }
  split; [exact H | split; [reflexivity | ]].
  exact (updateStreak_during_run three_days_done H).
Defined.

Lemma current_record_getCurrentDayData (appData : AppData) :
  current_record (snd (getCurrentDayData appData)) = current_record appData.
Proof.
  rewrite getCurrentDayData_state. apply current_record_store.
Qed.

Lemma days_done_complete (appData : AppData) (dayData : DayData) :
  shape appData ->
  days_done (completeCurrentDay (store_day appData (currentDay appData) dayData))
  = currentDay appData.
Proof.
  intros Hs. pose proof (shape_day _ Hs) as Hday.
  unfold days_done, current_record, getCurrentDayData.
  rewrite completeCurrentDay_eq, current_record_store.
  cbn [currentDay days store_day set_days]. rewrite insert_insert_eq.
  destruct (Z.ltb_spec (currentDay appData) 100) as [Hlt | Hge].
  - rewrite lookup_insert_ne by lia.
    destruct (days appData !! (currentDay appData + 1)) as [d | ] eqn:E.
    + pose proof (shape_keys _ Hs _ _ E). lia.
    + cbn. lia.
  - rewrite lookup_insert_eq. reflexivity.
Qed.

Lemma days_done_ext (a b : AppData) :
  days a = days b -> currentDay a = currentDay b -> days_done a = days_done b.
Proof.
  intros Hd Hc. unfold days_done. rewrite !current_record_lookup, Hd, Hc.
  reflexivity.
Qed.

Lemma handled_streak (appData : AppData) :
  handled appData -> streak appData <= days_done appData.
Proof.
  induction 1 as [ | a habit input Hh IH | a Hh IH | a Hh IH | a text Hh IH
                 | a answer1 answer2 Hh IH | a Hh IH ].
  - vm_compute. discriminate.
  - pose proof (reachable_shape _ (handled_reachable _ Hh)) as Hs.
    save_cases a habit input as value Hopen; [exact IH | ].
    unfold days_done in IH. rewrite Hopen in IH.
    destruct (areAllHabitsCompleted _).
    + rewrite (days_done_complete _ _ Hs), completeCurrentDay_eq.
      cbn [streak store_day set_days]. lia.
    + unfold days_done. rewrite current_record_store, saved_record_completed, Hopen.
      cbn [streak currentDay store_day set_days]. exact IH.
  - rewrite loadCurrentDayUI_state. unfold days_done in *.
    rewrite current_record_getCurrentDayData, getCurrentDayData_state. exact IH.
  - pose proof (reachable_shape _ (handled_reachable _ Hh)) as Hs.
    rewrite (updateStreak_shape _ Hs).
    rewrite (days_done_ext (updateStreak a) a eq_refl eq_refl).
    unfold days_done. pose proof (shape_day _ Hs).
    destruct (completed (current_record a)); lia.
  - now rewrite (days_done_ext (saveWhy a text) a eq_refl eq_refl).
  - unfold restartChallenge.
    destruct (_ && _); [destruct answer1 | ];
      first [exact IH | vm_compute; discriminate].
  - pose proof (shape_parse_saved _ (reachable_shape _ (handled_reachable _ Hh)))
      as Hs.
    unfold page_load. rewrite (init_shape _ Hs), getCurrentDayData_state.
    cbn [streak store_day set_days].
    rewrite (updateStreak_shape _ Hs).
    unfold days_done. rewrite current_record_store.
    cbn [currentDay store_day set_days].
    rewrite (current_record_lookup (updateStreak (parse_saved a))).
    rewrite (current_record_lookup (parse_saved a)).
    cbn [days currentDay updateStreak set_streak].
    pose proof (shape_day _ Hs).
    destruct (completed _); cbn [currentDay parse_saved] in *; lia.
Qed.

(** X12.  The streak never counts more than was done.  In every state
    the handlers produce from the fresh state, the streak is at most the
    number of completed days: the current day minus one while the
    current day is open, and the current day once it is completed. *)
Theorem streak_at_most_days_done (appData : AppData) :
  handled appData ->
  0 <= streak appData <= days_done appData /\ days_done appData <= 100.
Proof.
  intros H.
  pose proof (reachable_shape _ (handled_reachable _ H)) as Hs.
  pose proof (shape_day _ Hs). pose proof (shape_streak _ Hs).
  pose proof (handled_streak _ H).
  split; [lia | ]. unfold days_done.
  destruct (completed (current_record appData)); lia.
Qed.

Lemma streak_at_most_days_done_witness :
  handled three_days_done /\
  0 <= streak three_days_done <= days_done three_days_done.
Proof.
  assert (H : handled three_days_done).
  { rewrite <- three_days_done_run. apply handled_save_all, handled_fresh. }
  split; [exact H | ].
  exact (proj1 (streak_at_most_days_done three_days_done H)).
Defined.

(* ------------------------------------------------------------------ *)
(** ** The progress count                                               *)
(* ------------------------------------------------------------------ *)

Lemma completed_count_insert_open (m : gmap Z DayData) (day : Z) (dayData : DayData) :
  completed dayData = false ->
  (forall d, m !! day = Some d -> completed d = false) ->
  size (filter (fun kv : Z * DayData => completed kv.2 = true) (<[day := dayData]> m))
  = size (filter (fun kv : Z * DayData => completed kv.2 = true) m).
Proof.
  intros Hc Hold.
  rewrite map_filter_insert_False by (cbn; congruence).
  rewrite map_filter_delete, delete_id; [reflexivity | ].
  apply map_lookup_filter_None. right. intros d Hl. cbn.
  rewrite (Hold _ Hl). discriminate.
Qed.

Lemma completed_count_insert_done (m : gmap Z DayData) (day : Z) (dayData : DayData) :
  completed dayData = true ->
  (forall d, m !! day = Some d -> completed d = false) ->
  size (filter (fun kv : Z * DayData => completed kv.2 = true) (<[day := dayData]> m))
  = S (size (filter (fun kv : Z * DayData => completed kv.2 = true) m)).
Proof.
  intros Hc Hold.
  rewrite map_filter_insert_True by exact Hc.
  apply map_size_insert_None.
  apply map_lookup_filter_None. right. intros d Hl. cbn.
  rewrite (Hold _ Hl). discriminate.
Qed.

Lemma current_record_open_lookup (appData : AppData) :
  completed (current_record appData) = false ->
  forall d, days appData !! currentDay appData = Some d -> completed d = false.
Proof. intros Hopen d Hl. now rewrite (current_record_Some _ _ Hl) in Hopen. Qed.

Lemma completedDays_getCurrentDayData (appData : AppData) :
  completedDays (snd (getCurrentDayData appData)) = completedDays appData.
Proof.
  destruct (days appData !! currentDay appData) as [dayData | ] eqn:E.
  - now rewrite (getCurrentDayData_Some _ _ E).
  - rewrite (getCurrentDayData_None _ E). unfold completedDays.
    cbn [snd days store_day set_days].
    apply completed_count_insert_open; [reflexivity | ].
    intros d Hl. congruence.
Qed.

Lemma completedDays_parse_saved (appData : AppData) :
  completedDays (parse_saved appData) = completedDays appData.
Proof.
  unfold completedDays. cbn [days parse_saved].
  rewrite map_filter_fmap, map_size_fmap. f_equal.
Qed.

Lemma days_done_getCurrentDayData (appData : AppData) :
  days_done (snd (getCurrentDayData appData)) = days_done appData.
Proof.
  unfold days_done.
  now rewrite current_record_getCurrentDayData, getCurrentDayData_state.
Qed.

Lemma days_done_parse_saved (appData : AppData) :
  days_done (parse_saved appData) = days_done appData.
Proof.
  unfold days_done. rewrite !current_record_lookup, lookup_parse_saved.
  cbn [currentDay parse_saved].
  now destruct (days appData !! currentDay appData).
Qed.

Lemma days_done_page_load (appData : AppData) :
  shape appData -> days_done (page_load appData) = days_done appData.
Proof.
  intros Hs. unfold page_load.
  rewrite (init_shape _ (shape_parse_saved _ Hs)), days_done_getCurrentDayData.
  rewrite (days_done_ext (updateStreak (parse_saved appData)) (parse_saved appData)
             eq_refl eq_refl).
  apply days_done_parse_saved.
Qed.

Lemma reachable_completedDays (appData : AppData) :
  reachable appData -> completedDays appData = Z.to_nat (days_done appData).
Proof.
  induction 1 as [ | a habit input Hr IH | a Hr IH | a dayData Hr IH Hrec Hall
                 | a Hr IH | a text Hr IH | a answer1 answer2 Hr IH | a Hr IH ].
  - vm_compute. reflexivity.
  - pose proof (reachable_shape _ Hr) as Hs. pose proof (shape_day _ Hs) as Hday.
    save_cases a habit input as value Hopen; [exact IH | ].
    unfold days_done in IH. rewrite Hopen in IH.
    pose proof (current_record_open_lookup _ Hopen) as Hold.
    destruct (areAllHabitsCompleted _).
    + rewrite (days_done_complete _ _ Hs). unfold completedDays.
      rewrite completeCurrentDay_eq, current_record_store.
      cbn [days store_day set_days currentDay]. rewrite insert_insert_eq.
      rewrite completed_count_insert_done by easy.
      unfold completedDays in IH. rewrite IH. lia.
    + unfold days_done. rewrite current_record_store, saved_record_completed, Hopen.
      unfold completedDays. cbn [days store_day set_days currentDay].
      rewrite completed_count_insert_open;
        [exact IH | now rewrite saved_record_completed | exact Hold].
  - rewrite completedDays_getCurrentDayData. unfold days_done in *.
    now rewrite current_record_getCurrentDayData, getCurrentDayData_state.
  - pose proof (reachable_shape _ Hr) as Hs.
    pose proof (shape_flags _ Hs _ _ Hrec Hall) as Hc.
    pose proof (shape_current _ Hs _ Hrec Hc) as Hd.
    rewrite (completeCurrentDay_again _ _ Hrec Hc Hd).
    now rewrite (days_done_ext (set_streak a (streak a + 1)) a eq_refl eq_refl).
  - now rewrite (days_done_ext (updateStreak a) a eq_refl eq_refl).
  - now rewrite (days_done_ext (saveWhy a text) a eq_refl eq_refl).
  - unfold restartChallenge.
    destruct (_ && _); [destruct answer1 | ];
      first [exact IH | vm_compute; reflexivity].
  - pose proof (reachable_shape _ Hr) as Hs.
    rewrite (days_done_page_load _ Hs), <- IH.
    unfold page_load.
    rewrite (init_shape _ (shape_parse_saved _ Hs)), completedDays_getCurrentDayData.
    apply completedDays_parse_saved.
Qed.

(** X13.  What the dashboard shows in a state of a run.  The progress
    count of [loadCurrentDayUI] (the number of completed records) is the
    number of the current day minus one while the day is open, and the
    day itself once it is completed; it is never above 100.  The inputs
    are disabled only when day 100 is completed, and the progress then
    reads 100. *)
Theorem loadCurrentDayUI_progress (appData : AppData) :
  reachable appData ->
  let dashboard := fst (loadCurrentDayUI appData) in
  shown_progress dashboard = Z.to_nat (days_done appData) /\
  (shown_progress dashboard <= 100)%nat /\
  (inputs_disabled dashboard = false ->
   Z.of_nat (shown_progress dashboard) = currentDay appData - 1) /\
  (inputs_disabled dashboard = true ->
   currentDay appData = 100 /\ shown_progress dashboard = 100%nat).
Proof.
  intros Hreach dashboard.
  pose proof (reachable_shape _ Hreach) as Hs. pose proof (shape_day _ Hs) as Hday.
  assert (Hp : shown_progress dashboard = Z.to_nat (days_done appData)).
  { subst dashboard. unfold loadCurrentDayUI.
    pose proof (getCurrentDayData_state appData) as Hst.
    unfold current_record in Hst.
    destruct (getCurrentDayData appData) as [dayData appData'] eqn:E.
    cbn [fst snd shown_progress] in *. subst appData'.
    unfold updateScoreDisplay. rewrite getCurrentDayData_store. cbn [snd].
    replace (store_day appData (currentDay appData) dayData)
      with (snd (getCurrentDayData appData)) by now rewrite E.
    rewrite completedDays_getCurrentDayData.
    now apply reachable_completedDays. }
  assert (Hd : inputs_disabled dashboard = completed (current_record appData)).
  { subst dashboard. unfold loadCurrentDayUI, current_record.
    now destruct (getCurrentDayData appData). }
  rewrite Hp, Hd. unfold days_done.
  destruct (completed (current_record appData)) eqn:Hc.
  - assert (H100 : currentDay appData = 100).
    { destruct (days appData !! currentDay appData) as [d | ] eqn:E.
      - rewrite (current_record_Some _ _ E) in Hc.
        exact (shape_current _ Hs _ E Hc).
      - rewrite (current_record_None _ E) in Hc. discriminate Hc. }
    rewrite H100. repeat split; try lia; discriminate.
  - repeat split; try lia; discriminate.
Qed.

Lemma loadCurrentDayUI_progress_witness :
  reachable three_days_done /\
  shown_progress (fst (loadCurrentDayUI three_days_done)) = 3%nat.
Proof.
  assert (H : reachable three_days_done).
  { rewrite <- three_days_done_run. apply reachable_save_all, reach_fresh. }
  split; [exact H | ].
  exact (proj1 (loadCurrentDayUI_progress three_days_done H)).
Defined.

(* ------------------------------------------------------------------ *)
(** ** The calendar and the details of a day                            *)
(* ------------------------------------------------------------------ *)

Lemma calendar_cell_shape (appData : AppData) (day : Z) :
  shape appData ->
  calendar_cell appData day =
  if day <? currentDay appData then
    (if 1 <=? day then [cls_done] else [])
  else if day =? currentDay appData then
    (if completed (current_record appData)
     then [cls_done; cls_current] else [cls_current])
  else [].
Proof.
  intros Hs. unfold calendar_cell.
  destruct (Z.ltb_spec day (currentDay appData)) as [Hlt | Hge].
  - destruct (Z.eqb_spec day (currentDay appData)) as [Heq | _]; [lia | ].
    destruct (Z.leb_spec 1 day) as [Hpos | Hneg].
    + destruct (shape_past _ Hs day) as (d & Hl & Hc); [lia | ].
      now rewrite Hl, Hc.
    + destruct (days appData !! day) as [d | ] eqn:E; [ | reflexivity].
      pose proof (shape_keys _ Hs _ _ E). lia.
  - destruct (Z.eqb_spec day (currentDay appData)) as [-> | Hne].
    + rewrite current_record_lookup.
      destruct (days appData !! currentDay appData) as [d | ]; [ | reflexivity].
      now destruct (completed d).
    + destruct (days appData !! day) as [d | ] eqn:E; [ | reflexivity].
      pose proof (shape_keys _ Hs _ _ E). lia.
Qed.

(** X14.  The calendar of a run.  In every state of a run
    [renderCalendar] draws the days before the current day as done, the
    current day as current (and done as well once it is completed) and
    the days after it with no class.  The class for an incomplete past
    day is never used: a day is left only by completing it. *)
Theorem renderCalendar_during_run (appData : AppData) :
  reachable appData ->
  renderCalendar appData =
    map (fun day =>
           (day,
            if day <? currentDay appData then [cls_done]
            else if day =? currentDay appData then
              (if completed (current_record appData)
               then [cls_done; cls_current] else [cls_current])
            else []))
        (seqZ 1 100) /\
  (forall day classes,
      In (day, classes) (renderCalendar appData) -> ~ In cls_incomplete classes).
Proof.
  intros Hreach. pose proof (reachable_shape _ Hreach) as Hs.
  assert (Hform : renderCalendar appData =
    map (fun day =>
           (day,
            if day <? currentDay appData then [cls_done]
            else if day =? currentDay appData then
              (if completed (current_record appData)
               then [cls_done; cls_current] else [cls_current])
            else []))
        (seqZ 1 100)).
  { unfold renderCalendar. apply map_ext_in. intros day Hin.
    apply list_elem_of_In, elem_of_seqZ in Hin.
    rewrite (calendar_cell_shape _ _ Hs).
    destruct (Z.leb_spec 1 day); [reflexivity | lia]. }
  split; [exact Hform | ].
  intros day classes Hin. rewrite Hform in Hin.
  apply in_map_iff in Hin as (d & [= <- <-] & _).
  destruct (d <? currentDay appData); [ | destruct (d =? currentDay appData);
    [destruct (completed (current_record appData)) | ]];
    cbn; intuition discriminate.
Qed.

Lemma renderCalendar_during_run_witness :
  reachable three_days_done /\
  ~ In cls_incomplete (calendar_cell three_days_done 2).
Proof.
  assert (H : reachable three_days_done).
  { rewrite <- three_days_done_run. apply reachable_save_all, reach_fresh. }
  split; [exact H | ].
  apply (proj2 (renderCalendar_during_run three_days_done H) 2).
  unfold renderCalendar. apply in_map_iff. exists 2.
  split; [reflexivity | ]. vm_compute. tauto.
Defined.

(** The calendar has its 100 cells, numbered from 1 to 100, in any
    state. *)
Lemma renderCalendar_days (appData : AppData) :
  map fst (renderCalendar appData) = seqZ 1 100.
Proof.
  unfold renderCalendar. rewrite map_map. cbn [fst]. apply map_id.
Qed.

(** X15.  The details of a day in a state of a run, loads of the page
    included.  A day after the current day, or outside the calendar, has
    no data.  A day before the current day is shown as completed, with a
    score that is a multiple of 20 up to 100, and each of its five
    habits, in the order of the cards, is ticked; a habit shows a logged
    number that meets its rule, or Not logged where a load of the page
    has lost the number.  When no save of the run was given [Infinity]
    the score is 100 and every habit shows its number. *)
Theorem showDayDetails_during_run (appData : AppData) (day : Z) :
  reachable appData ->
  ((day < 1 \/ currentDay appData < day) -> showDayDetails appData day = NoData) /\
  (1 <= day < currentDay appData ->
   exists shown lines,
     showDayDetails appData day = Recorded true shown lines /\
     0 <= shown <= 100 /\ (20 | shown) /\
     map line_label lines = habits /\
     Forall (fun line =>
               line_status line = true /\
               (line_value line = None \/
                exists v, line_value line = Some (VNum v) /\
                          isHabitCompleted (line_label line) (VNum v) = true))
            lines /\
     (finite_run appData ->
      shown = 100 /\
      Forall (fun line => exists v, line_value line = Some (VNum v)) lines)).
Proof.
  intros Hreach. pose proof (reachable_shape _ Hreach) as Hs. split.
  - intros Hout. unfold showDayDetails.
    destruct (days appData !! day) as [d | ] eqn:E; [ | reflexivity].
    pose proof (shape_keys _ Hs _ _ E). lia.
  - intros Hpast. destruct (shape_past _ Hs day Hpast) as (d & Hl & Hc).
    destruct (reachable_weak _ _ _ Hreach Hl) as [_ Hdown Hscore Hmul Hcompleted].
    specialize (Hcompleted Hc).
    pose proof (flag_points_range (completedHabits d)) as [_ Hrange].
    unfold showDayDetails. rewrite Hl, Hc.
    eexists _, _. split; [reflexivity | ].
    split; [lia | split; [exact Hmul | ]].
    split; [now rewrite map_map | ].
    split.
    + apply Forall_forall. intros line Hin.
      apply list_elem_of_In, in_map_iff in Hin as (h & <- & _). cbn.
      split; [apply Hcompleted | ].
      destruct (Hdown h (Hcompleted h)) as [Hm | Hnull].
      * destruct (get_value d h) as [ | | v] eqn:Ev; try discriminate Hm.
        right. exists v. now split.
      * left. now rewrite Hnull.
    + intros Hrun.
      destruct (finite_run_records _ _ _ Hrun Hl) as [[Hflags Hsc _] _].
      split.
      * rewrite Hsc, (score_counts_flags _ Hflags). now apply flag_points_100.
      * apply Forall_forall. intros line Hin.
        apply list_elem_of_In, in_map_iff in Hin as (h & <- & _). cbn.
        pose proof (Hflags h) as Hf. rewrite (Hcompleted h) in Hf.
        destruct (get_value d h) as [ | | v] eqn:Ev; try discriminate Hf.
        now exists v.
Qed.

Lemma showDayDetails_during_run_witness :
  reachable three_days_done /\
  showDayDetails three_days_done 7 = NoData /\
  (exists shown lines, showDayDetails three_days_done 2 = Recorded true shown lines).
Proof.
  assert (H : reachable three_days_done).
  { rewrite <- three_days_done_run. apply reachable_save_all, reach_fresh. }
  split; [exact H | split].
  - apply (proj1 (showDayDetails_during_run three_days_done 7 H)).
    right. vm_compute. reflexivity.
  - destruct (proj2 (showDayDetails_during_run three_days_done 2 H))
      as (shown & lines & Hshow & _).
    + vm_compute. split; [discriminate | reflexivity].
    + exists shown, lines. exact Hshow.
Defined.

(* ------------------------------------------------------------------ *)
(** ** Restarting during a run                                          *)
(* ------------------------------------------------------------------ *)

Lemma challenge_completed_days_done (appData : AppData) :
  shape appData ->
  challenge_completed appData = true <-> days_done appData = 100.
Proof.
  intros Hs. pose proof (shape_day _ Hs) as Hday.
  unfold challenge_completed, days_done. rewrite current_record_lookup.
  rewrite andb_true_iff, Z.leb_le. split.
  - intros [Hle Hc]. assert (Heq : currentDay appData = 100) by lia.
    rewrite Heq. destruct (days appData !! 100) as [d | ]; [ | discriminate Hc].
    now rewrite Hc.
  - intros Hd.
    destruct (days appData !! currentDay appData) as [d | ] eqn:E.
    + destruct (completed d) eqn:Hc; [ | lia].
      rewrite Hd in E. rewrite E. split; [lia | exact Hc].
    + cbn in Hd. lia.
Qed.

(** X16.  Restarting during a run.  Before all 100 days are done a
    restart asks nothing: whatever the answers would be, every record is
    discarded, the day is 1, the streak 0 and the motivation text is
    kept.  Once the 100 days are done the first answer decides: a
    refusal leaves the state as it is, and only after a consent can the
    second answer clear the text. *)
Theorem restartChallenge_during_run (appData : AppData) (answer1 answer2 : bool) :
  reachable appData ->
  (days_done appData < 100 ->
   restartChallenge appData answer1 answer2 =
   {| currentDay := 1; streak := 0; days := ∅;
      whyStarted := whyStarted appData |}) /\
  (days_done appData = 100 ->
   restartChallenge appData false answer2 = appData /\
   restartChallenge appData true answer2 =
   {| currentDay := 1; streak := 0; days := ∅;
      whyStarted := if answer2 then whyStarted appData else EmptyString |}).
Proof.
  intros Hreach. pose proof (reachable_shape _ Hreach) as Hs.
  pose proof (challenge_completed_days_done _ Hs) as Hiff.
  rewrite !restartChallenge_unfold. split.
  - intros Hlt. destruct (challenge_completed appData); [ | reflexivity].
    assert (days_done appData = 100) by now apply Hiff. lia.
  - intros Hd. apply Hiff in Hd. rewrite Hd. now split.
Qed.

Lemma restartChallenge_during_run_witness :
  reachable three_days_done /\
  days_done three_days_done < 100 /\
  restartChallenge three_days_done false false = fresh.
Proof.
  assert (H : reachable three_days_done).
  { rewrite <- three_days_done_run. apply reachable_save_all, reach_fresh. }
  assert (Hd : days_done three_days_done < 100) by (vm_compute; reflexivity).
  split; [exact H | split; [exact Hd | ]].
  exact (proj1 (restartChallenge_during_run three_days_done false false H) Hd).
Defined.

(* ------------------------------------------------------------------ *)
(** ** More on the guards of [init]                                     *)
(* ------------------------------------------------------------------ *)

Lemma js_not_missing (v : JSVal (gmap Z DayData)) :
  js_not v = true <-> days_missing v.
Proof.
  split.
  - destruct v as [ | | [] | [ | | | q] | [ | a s] | o]; cbn;
      intros Hnot; try discriminate Hnot; constructor.
    now apply Qeq_bool_iff.
  - intros [ | | | q Hq | | ]; cbn; try reflexivity.
    now apply Qeq_bool_iff.
Qed.

(** X17.  What the first statement of the script and the guards of
    [init] make of whatever [JSON.parse] returned.  A falsy value (also
    when nothing is stored) gives the default object.  A stored object
    gets a [currentDay] that is a number not below 1 (at least 1 unless
    it is NaN) and a [streak] that is a number not below 0; its [days]
    is replaced by the empty object when it is undefined, null, false,
    0, NaN or the empty string, and kept otherwise, of whatever type;
    its [whyStarted] is kept.  A truthy boolean, number or string is
    left as it is: on it the guards repair nothing. *)
Theorem init_guards_establish (parsed : Parsed) :
  match parsed with
  | PObject stored =>
      exists raw,
        init_guards (or_default parsed) = PObject raw /\
        (exists n, raw_currentDay raw = JNumber n /\
                   js_lt n (num_of_Z 1) = false /\
                   (isNaN n = false -> js_ge n (num_of_Z 1) = true)) /\
        (exists n, raw_streak raw = JNumber n /\
                   js_lt n (num_of_Z 0) = false /\
                   (isNaN n = false -> js_ge n (num_of_Z 0) = true)) /\
        (days_missing (raw_days stored) -> raw_days raw = JObject ∅) /\
        (~ days_missing (raw_days stored) -> raw_days raw = raw_days stored) /\
        raw_whyStarted raw = raw_whyStarted stored
  | PNull | PBool false | PNumber NaN | PString EmptyString =>
      init_guards (or_default parsed) = PObject default_raw
  | PNumber (Fin q) =>
      (Qeq q 0 -> init_guards (or_default parsed) = PObject default_raw) /\
      (~ Qeq q 0 -> init_guards (or_default parsed) = parsed)
  | PBool true | PNumber _ | PString _ =>
      init_guards (or_default parsed) = parsed
  end.
Proof.
  assert (Hge : forall n k, js_lt n (num_of_Z k) = false -> isNaN n = false ->
                            js_ge n (num_of_Z k) = true).
  { intros n k Hlt Hnan. destruct n; cbn in *;
      try discriminate; try reflexivity; now apply negb_false_iff in Hlt. }
  destruct parsed as [ | [] | [ | | | q] | [ | a s] | stored]; try reflexivity.
  - cbn [or_default]. split.
    + intros Hq. apply Qeq_bool_iff in Hq. now rewrite Hq.
    + intros Hq. destruct (Qeq_bool q 0) eqn:E; [ | reflexivity].
      apply Qeq_bool_iff in E. contradiction.
  - cbn [or_default init_guards]. eexists. split; [reflexivity | ].
    rewrite init_ensure_valid_eq.
    cbn [raw_currentDay raw_streak raw_days raw_whyStarted].
    split; [ | split; [ | split; [ | split; [ | reflexivity]]]].
    + destruct (guarded_number (raw_currentDay stored) 1 eq_refl)
        as (n & Hn & Hlt).
      exists n. split; [exact Hn | split; [exact Hlt | now apply Hge]].
    + destruct (guarded_number (raw_streak stored) 0 eq_refl) as (n & Hn & Hlt).
      exists n. split; [exact Hn | split; [exact Hlt | now apply Hge]].
    + intros Hm. apply js_not_missing in Hm. now rewrite Hm.
    + intros Hm. destruct (js_not (raw_days stored)) eqn:E; [ | reflexivity].
      apply js_not_missing in E. contradiction.
Qed.

(** X18.  The guards of [init] repair in one pass: applied to their own
    result they change nothing, and a blob whose three fields pass the
    guards is returned as it is. *)
Theorem init_ensure_valid_idempotent (raw : RawData) :
  init_ensure_valid (init_ensure_valid raw) = init_ensure_valid raw /\
  (js_not (raw_days raw) = false ->
   negb (typeof_number (raw_currentDay raw)) || js_lt_Z (raw_currentDay raw) 1
     = false ->
   negb (typeof_number (raw_streak raw)) || js_lt_Z (raw_streak raw) 0 = false ->
   init_ensure_valid raw = raw).
Proof.
  assert (Hfix : forall r,
    js_not (raw_days r) = false ->
    negb (typeof_number (raw_currentDay r)) || js_lt_Z (raw_currentDay r) 1 = false ->
    negb (typeof_number (raw_streak r)) || js_lt_Z (raw_streak r) 0 = false ->
    init_ensure_valid r = r).
  { intros r H1 H2 H3. rewrite init_ensure_valid_eq, H1, H2, H3. now destruct r. }
  split; [ | apply Hfix].
  apply Hfix; rewrite init_ensure_valid_eq;
    cbn [raw_currentDay raw_streak raw_days].
  - now destruct (js_not (raw_days raw)) eqn:E.
  - now destruct (negb (typeof_number (raw_currentDay raw))
                  || js_lt_Z (raw_currentDay raw) 1) eqn:E.
  - now destruct (negb (typeof_number (raw_streak raw))
                  || js_lt_Z (raw_streak raw) 0) eqn:E.
Qed.

Lemma init_ensure_valid_idempotent_witness :
  init_ensure_valid stored_day_150 = stored_day_150.
Proof.
  apply (proj2 (init_ensure_valid_idempotent stored_day_150)); reflexivity.
Defined.

(* ------------------------------------------------------------------ *)
(** ** The rules as intervals                                           *)
(* ------------------------------------------------------------------ *)

Lemma js_ge_trans (a b c : Num) :
  js_ge a b = true -> js_ge b c = true -> js_ge a c = true.
Proof.
  rewrite !js_ge_iff. intros Hab Hbc.
  destruct Hab as [b Hb | a Ha | x y Hxy].
  - constructor. inversion Hbc; congruence.
  - inversion Hbc; subst; try congruence. now constructor.
  - inversion Hbc; subst.
    + constructor. discriminate.
    + constructor. eapply Qle_trans; eassumption.
Qed.

(** X19.  More is enough, except for Food.  For Sleep, Water, Workout
    and Study a value at least as large as a value that completes the
    habit completes it too.  For every habit, Food included, a value
    between two values that complete the habit completes it. *)
Theorem isHabitCompleted_interval (habit : Habit) (v1 v v2 : Num) :
  js_ge v v1 = true ->
  isHabitCompleted habit (VNum v1) = true ->
  (habit <> Food -> isHabitCompleted habit (VNum v) = true) /\
  (js_ge v2 v = true -> isHabitCompleted habit (VNum v2) = true ->
   isHabitCompleted habit (VNum v) = true).
Proof.
  intros Hge H1.
  assert (Hmin : js_ge v (num_of_Z (min (HABIT_RULES habit))) = true).
  { apply (js_ge_trans _ v1); [exact Hge | ].
    destruct habit; cbn in H1 |- *; try exact H1.
    now apply andb_prop in H1 as [H1 _]. }
  split.
  - intros Hne. destruct habit; try exact Hmin. congruence.
  - intros Hle H2. destruct habit; try exact Hmin.
    cbn [isHabitCompleted HABIT_RULES min] in *.
    apply andb_prop in H2 as [_ H2]. apply andb_true_intro. split; [exact Hmin | ].
    unfold le_max, js_le in *. cbn [max HABIT_RULES] in *.
    exact (js_ge_trans _ _ _ H2 Hle).
Qed.

Lemma isHabitCompleted_interval_witness :
  js_ge (num_of_Z 9) (num_of_Z 7) = true /\
  isHabitCompleted Sleep (VNum (num_of_Z 7)) = true /\
  isHabitCompleted Sleep (VNum (num_of_Z 9)) = true.
Proof.
  assert (H1 : js_ge (num_of_Z 9) (num_of_Z 7) = true) by reflexivity.
  assert (H2 : isHabitCompleted Sleep (VNum (num_of_Z 7)) = true) by reflexivity.
  split; [exact H1 | split; [exact H2 | ]].
  apply (proj1 (isHabitCompleted_interval Sleep (num_of_Z 7) (num_of_Z 9)
                  (num_of_Z 9) H1 H2)).
  discriminate.
Defined.
